(** * csv_to_json: the CSV to columnar JSON converter of scripts/csv_to_json.py

    A shallow embedding of the script and the properties of its
    specification.  The script reads each configured CSV file through
    [csv.DictReader], drops the columns that are redundant or all zero,
    coerces the remaining cells with [parse_value], and writes one compact
    JSON object per file.

    Conventions of the embedding:
    - a Python [str] is a [string]; each [ascii] stands for the character
      with that code point, so the texts covered are those whose code
      points are below 256;
    - a Python [float] is an IEEE 754 binary64 number, a [spec_float] with
      precision 53 and maximal exponent 1024;
    - a Python exception is a value of [exn]; code that can raise returns a
      [result];
    - the records that [csv.reader] yields for a file (one list of fields
      per record, the header first) are the input of the model: decoding
      and tokenising are the library's work and happen before any line of
      the script looks at the data. *)

From Stdlib Require Import ZArith NArith Ascii String List Bool Lia.
From Stdlib Require Import SpecFloat.
From stdpp Require Import base option list gmap strings.

Local Open Scope string_scope.
Local Open Scope Z_scope.
Local Open Scope list_scope.

(** ** Exceptions and fallible computations *)

Inductive exn :=
  | ValueError
  | OverflowError
  | AttributeError
  | KeyError
  | StopIteration
  | FileNotFoundError.

Inductive result (A : Type) :=
  | Ret (a : A)
  | Raise (e : exn).
Arguments Ret {A} a.
Arguments Raise {A} e.

(** Sequencing: [x ← r; k] runs [k] on the value of [r], and propagates
    the exception when [r] raises. *)
#[global] Instance result_bind : MBind result := fun A B k r =>
  match r with
  | Ret a => k a
  | Raise e => Raise e
  end.

#[global] Instance result_ret : MRet result := fun A a => Ret a.

(** Unfolds the sequencing of fallible steps. *)
Ltac simpl_result :=
  repeat (progress (unfold mbind, result_bind, mret, result_ret in *; simpl in *)).

#[global] Instance exn_eq_dec : EqDecision exn.
Proof. solve_decision. Defined.

(** ** The part of the Python runtime the script calls *)

Module Py.

(** *** [str]: whitespace, [strip], [in] *)

(** [str.isspace] on the characters below 256: tab to carriage return,
    the four separators 0x1c to 0x1f, the space, NEL and the no-break
    space. *)
Definition isspace (c : ascii) : bool :=
  let n := N_of_ascii c in
  ((9 <=? n) && (n <=? 13) || (28 <=? n) && (n <=? 32)
   || (n =? 133) || (n =? 160))%N.

(** The text without its leading, and without its trailing, characters
    of the class [sp]. *)
Fixpoint lstrip_by (sp : ascii -> bool) (s : string) : string :=
  match s with
  | String c s' => if sp c then lstrip_by sp s' else s
  | EmptyString => EmptyString
  end.

Fixpoint rstrip_by (sp : ascii -> bool) (s : string) : string :=
  match s with
  | String c s' =>
      match rstrip_by sp s' with
      | EmptyString => if sp c then EmptyString else String c EmptyString
      | t => String c t
      end
  | EmptyString => EmptyString
  end.

(** [s.strip()] *)
Definition strip (s : string) : string :=
  rstrip_by isspace (lstrip_by isspace s).

(** The whitespace [float] and [int] skip around a literal: the blank
    characters of ASCII, and the whitespace beyond ASCII. *)
Definition isspace_numeric (c : ascii) : bool :=
  let n := N_of_ascii c in
  ((9 <=? n) && (n <=? 13) || (n =? 32) || (n =? 133) || (n =? 160))%N.

Definition strip_numeric (s : string) : string :=
  rstrip_by isspace_numeric (lstrip_by isspace_numeric s).

(** [c in s] for a one-character [c] *)
Fixpoint contains (c : ascii) (s : string) : bool :=
  match s with
  | String d s' => if Ascii.eqb c d then true else contains c s'
  | EmptyString => false
  end.

(** *** Decimal digits *)

Definition isdigit (c : ascii) : bool :=
  let n := N_of_ascii c in ((48 <=? n) && (n <=? 57))%N.

Definition digit_value (c : ascii) : Z := Z.of_N (N_of_ascii c) - 48.

(** The number a run of digit characters denotes, most significant
    first. *)
Definition digits_value (ds : list ascii) : Z :=
  fold_left (fun acc d => 10 * acc + digit_value d) ds 0.

(** The longest prefix of digits, and the rest. *)
Fixpoint span_digits (s : list ascii) : list ascii * list ascii :=
  match s with
  | c :: s' =>
      if isdigit c then let '(ds, r) := span_digits s' in (c :: ds, r)
      else ([], s)
  | [] => ([], [])
  end.

Definition tolower (c : ascii) : ascii :=
  let n := N_of_ascii c in
  if ((65 <=? n) && (n <=? 90))%N then ascii_of_N (n + 32) else c.

Definition underscore : ascii := "_"%char.

(** Underscores in a numeric literal: each one stands between two
    digits.  [strip_underscores prev s] checks this and removes them;
    [prev] is the character before [s] (the NUL character at the
    start). *)
Fixpoint strip_underscores (prev : ascii) (s : list ascii)
  : option (list ascii) :=
  match s with
  | [] => if Ascii.eqb prev underscore then None else Some []
  | c :: s' =>
      if Ascii.eqb c underscore then
        if isdigit prev then strip_underscores c s' else None
      else if Ascii.eqb prev underscore && negb (isdigit c) then None
      else cons c <$> strip_underscores c s'
  end.

(** *** [float] *)

Definition prec : Z := 53.
Definition emax : Z := 1024.

(** The binary64 number nearest to [(-1)^neg * m * 10^e], ties to even;
    too large a value gives an infinity, too small a one a zero. *)
Definition float_of_decimal (neg : bool) (m : Z) (e : Z) : spec_float :=
  match m with
  | Zpos p =>
      match e with
      | Zneg k =>
          SFdiv prec emax (S754_finite neg p 0)
                (S754_finite false (Pos.pow 10 k) 0)
      | _ => binary_round prec emax neg (p * Z.to_pos (10 ^ e))%positive 0
      end
  | _ => S754_zero neg
  end.

(** An optional sign: [(negative, rest)]. *)
Definition read_sign (s : list ascii) : bool * list ascii :=
  match s with
  | "-"%char :: s' => (true, s')
  | "+"%char :: s' => (false, s')
  | _ => (false, s)
  end.

(** The exponent part: [e] or [E], an optional sign, at least one digit,
    up to the end of the text. *)
Definition read_exponent (s : list ascii) : option Z :=
  match s with
  | [] => Some 0
  | c :: s' =>
      if Ascii.eqb (tolower c) "e"%char then
        let '(neg, s'') := read_sign s' in
        match span_digits s'' with
        | ((_ :: _) as ds, []) =>
            Some (if neg then - digits_value ds else digits_value ds)
        | _ => None
        end
      else None
  end.

(** [inf], [infinity] and [nan] in any letter case. *)
Definition read_inf_nan (neg : bool) (s : list ascii) : option spec_float :=
  let w := string_of_list_ascii (map tolower s) in
  if String.eqb w "inf" || String.eqb w "infinity"
  then Some (S754_infinity neg)
  else if String.eqb w "nan" then Some S754_nan
  else None.

(** A literal without underscores: a sign, then digits with an optional
    point (at least one digit before or after it) and an optional
    exponent, or one of the special names. *)
Definition read_float (s : list ascii) : option spec_float :=
  let '(neg, s1) := read_sign s in
  let '(ip, s2) := span_digits s1 in
  let '(fp, s3) :=
    match s2 with
    | "."%char :: s2' => span_digits s2'
    | _ => ([], s2)
    end in
  match ip ++ fp with
  | [] => read_inf_nan neg s1
  | ds =>
      ex ← read_exponent s3;
      Some (float_of_decimal neg (digits_value ds)
              (ex - Z.of_nat (length fp)))
  end.

(** What [float(s)] accepts, and the number it denotes. *)
Definition float_literal (s : string) : option spec_float :=
  let l := list_ascii_of_string s in
  if contains underscore s
  then l' ← strip_underscores zero l; read_float l'
  else read_float l.

(** [float(s)]: whitespace around the literal is skipped, and a text
    that is no literal raises [ValueError]. *)
Definition float (s : string) : result spec_float :=
  match float_literal (strip_numeric s) with
  | Some f => Ret f
  | None => Raise ValueError
  end.

(** [f != 0.0] *)
Definition float_ne_zero (f : spec_float) : bool :=
  negb (SFeqb f (S754_zero false)).

(** [int(f)]: truncation towards zero; an infinity raises
    [OverflowError], a NaN [ValueError]. *)
Definition int_of_float (f : spec_float) : result Z :=
  match f with
  | S754_zero _ => Ret 0
  | S754_infinity _ => Raise OverflowError
  | S754_nan => Raise ValueError
  | S754_finite s m e => Ret (cond_Zopp s (Z.shiftl (Zpos m) e))
  end.

(** [f == n] for a float [f] and an int [n]: the comparison is exact. *)
Definition float_eq_int (f : spec_float) (n : Z) : bool :=
  match f with
  | S754_zero _ => n =? 0
  | S754_finite s m e =>
      if 0 <=? e then cond_Zopp s (Zpos m * 2 ^ e) =? n
      else cond_Zopp s (Zpos m) =? n * 2 ^ (- e)
  | _ => false
  end.

(** [n / d] rounded to the nearest integer, ties to even ([0 < d]). *)
Definition div_half_even (n d : Z) : Z :=
  let q := n / d in
  let r := n mod d in
  match 2 * r ?= d with
  | Lt => q
  | Gt => q + 1
  | Eq => if Z.even q then q else q + 1
  end.

(** [round(f, 2)]: the decimal with two fractional digits nearest to
    the exact value of [f] (ties to even), converted back to binary64. *)
Definition round2 (f : spec_float) : spec_float :=
  match f with
  | S754_finite s m e =>
      let q := if 0 <=? e then Zpos m * 100 * 2 ^ e
               else div_half_even (Zpos m * 100) (2 ^ (- e)) in
      float_of_decimal s q (-2)
  | _ => f
  end.

(** *** [int] *)

(** The default of [sys.get_int_max_str_digits()]. *)
Definition int_max_str_digits : nat := 4300.

(** What [int(s)] accepts in base 10: a sign, then digits, single
    underscores between digits allowed, no more digits than the
    limit. *)
Definition int_literal (s : string) : option Z :=
  let '(neg, s1) := read_sign (list_ascii_of_string s) in
  s2 ← strip_underscores zero s1;
  match span_digits s2 with
  | ((_ :: _) as ds, []) =>
      if decide (length ds ≤ int_max_str_digits)%nat
      then Some (if neg then - digits_value ds else digits_value ds)
      else None
  | _ => None
  end.

(** [int(s)]: whitespace around the literal is skipped, and a text
    that is no literal raises [ValueError]. *)
Definition int (s : string) : result Z :=
  match int_literal (strip_numeric s) with
  | Some n => Ret n
  | None => Raise ValueError
  end.

(** *** [try: ... except E: ...] *)
Definition try_except {A} (body : result A) (e : exn) (handler : result A)
  : result A :=
  match body with
  | Ret a => Ret a
  | Raise e' => if decide (e' = e) then handler else Raise e'
  end.

(** *** [dict]: insertion-ordered, one entry per key *)

Section Dict.
Context {K V : Type} `{EqDecision K}.

(** [d[k]] *)
Fixpoint getitem (d : list (K * V)) (k : K) : result V :=
  match d with
  | (k', v) :: d' => if decide (k' = k) then Ret v else getitem d' k
  | [] => Raise KeyError
  end.

(** [d[k] = v]: an existing key keeps its place. *)
Fixpoint setitem (d : list (K * V)) (k : K) (v : V) : list (K * V) :=
  match d with
  | (k', v') :: d' =>
      if decide (k' = k) then (k', v) :: d' else (k', v') :: setitem d' k v
  | [] => [(k, v)]
  end.

(** [list(d.keys())] *)
Definition keys (d : list (K * V)) : list K := fst <$> d.

(** [dict(items)] *)
Definition dict_of (items : list (K * V)) : list (K * V) :=
  fold_left (fun d kv => setitem d kv.1 kv.2) items [].
End Dict.

(** [for x in l: s = body(x, s)], stopping at the first exception. *)
Fixpoint for_each {A S} (l : list A) (body : A -> S -> result S) (s : S)
  : result S :=
  match l with
  | x :: l' => s' ← body x s; for_each l' body s'
  | [] => Ret s
  end.

End Py.

(** ** [csv.DictReader] *)

(** A key of a row: a column name, or [None], the [restkey] under which
    the fields beyond the header are kept. *)
Definition key := option string.

(** A value of a row: the text of a field, [None] (the [restval] of a
    field the record lacks), or the list of the fields beyond the header. *)
Inductive cell :=
  | CStr (s : string)
  | CNone
  | CList (l : list string).

Definition row := list (key * cell).

Module Csv.

(** One record turned into a row: the fields paired with the field
    names, the surplus fields under [None], the missing ones [None]. *)
Definition row_of (fieldnames record : list string) : row :=
  let d := Py.dict_of (zip (Some <$> fieldnames) (CStr <$> record)) in
  let lf := length fieldnames in
  let lr := length record in
  if decide (lf < lr)%nat then Py.setitem d None (CList (drop lf record))
  else if decide (lr < lf)%nat then
    fold_left (fun d k => Py.setitem d (Some k) CNone) (drop lr fieldnames) d
  else d.

(** [list(csv.DictReader(f, delimiter=";"))] on the records of [f]: the
    first record gives the field names, and records without any field
    (blank lines) are passed over. *)
Definition DictReader (records : list (list string)) : list row :=
  match records with
  | fieldnames :: rest =>
      row_of fieldnames <$> filter (fun r => r ≠ []) rest
  | [] => []
  end.

End Csv.

(** ** The script *)

(** [FILE_MAP.items()] *)
Definition FILE_MAP : list (string * string) :=
  [ ("calculation.csv", "calc_15min_consumption_2024.json");
    ("calculation (1).csv", "calc_15min_pv_2025.json");
    ("calculation (2).csv", "calc_15min_partial_2025.json");
    ("calculation (3).csv", "calc_15min_generator_2025.json");
    ("calculation (4).csv", "calc_15min_battery_2024.json");
    ("calculation_per_day.csv", "calc_daily_consumption_2024.json");
    ("calculation_per_day (1).csv", "calc_daily_simple_2024.json");
    ("calculation_per_day (2).csv", "calc_daily_pv_2024.json");
    ("calculation_per_month.csv", "calc_monthly_2024.json");
    ("input_profiles.csv", "profiles_15min_consumption_2024.json");
    ("input_profiles (1).csv", "profiles_15min_pv_2025.json");
    ("input_profiles (2).csv", "profiles_15min_partial_2025.json");
    ("input_profiles (3).csv", "profiles_15min_extra_2025.json");
    ("input_profiles (4).csv", "profiles_15min_full_2024.json") ].

(** A coerced cell: [None], an [int], a [float] or a [str]. *)
Inductive value :=
  | VNone
  | VInt (n : Z)
  | VFloat (f : spec_float)
  | VStr (s : string).

(** [val.strip()] on a value of a row: only a [str] has the method. *)
Definition cell_strip (c : cell) : result string :=
  match c with
  | CStr s => Ret (Py.strip s)
  | _ => Raise AttributeError
  end.

Definition parse_value (val : cell) : result value :=
  val ← cell_strip val;
  if decide (val = "") then Ret VNone
  else
    Py.try_except
      (f ← Py.float val;
       n ← Py.int_of_float f;
       if Py.float_eq_int f n && negb (Py.contains "."%char val)
       then k ← Py.int val; Ret (VInt k)
       else Ret (VFloat (Py.round2 f)))
      ValueError
      (Ret (VStr val)).

(** *** The world the script runs in *)

(** A line printed on standard output, by what it reports. *)
Inductive event :=
  | Banner
  | Missing (csv_name : string)
  | SkipEmpty (csv_name : string)
  | Converted (csv_name json_name : string) (n_rows : nat)
      (kept_cols orig_cols : Z) (dropped : gset key)
  | Done.

(** A JSON text, by the document it denotes. *)
#[warnings="-register-all"]
Inductive json :=
  | JNull
  | JInt (n : Z)
  | JFloat (f : spec_float)
  | JString (s : string)
  | JArray (items : list json)
  | JObject (members : list (string * json)).

(** The directory [PUBLIC] as the script finds it ([files]: the names
    that exist, each with the records [csv.reader] yields for it), the
    documents written so far, by file name, and the lines printed so far.
    No name is both an input and an output of [FILE_MAP], so nothing
    written during a run is read back. *)
Record world := World {
  files : gmap string (list (list string));
  written : gmap string json;
  stdout : list event
}.

Definition print (ev : event) (w : world) : world :=
  World (files w) (written w) (stdout w ++ [ev]).

(** [with open(path, "w") as f: json.dump(doc, f)]: the file is created
    or replaced. *)
Definition write_json (path : string) (doc : json) (w : world) : world :=
  World (files w) (<[path := doc]> (written w)) (stdout w).

(** *** [json.dump] *)

Definition json_of_value (v : value) : json :=
  match v with
  | VNone => JNull
  | VInt n => JInt n
  | VFloat f => JFloat f
  | VStr s => JString s
  end.

(** A key that is [None] is written as [null]. *)
Definition json_of_key (k : key) : string :=
  match k with
  | Some s => s
  | None => "null"
  end.

Definition columns_t := list (key * list value).

Definition json_of_columns (columns : columns_t) : json :=
  JObject ((fun kv => (json_of_key kv.1, JArray (json_of_value <$> kv.2)))
             <$> columns).

(** *** [convert] *)

(** The scan of one column (the loop over [rows] of lines 65 to 76): the
    final value of [all_zero].  A row stops the scan ([all_zero = False;
    break]) when its cell is a number other than zero or, in the handler,
    no number at all. *)
Fixpoint all_zero (col : key) (rows : list row) : result bool :=
  match rows with
  | row :: rows' =>
      c ← Py.getitem row col;
      val ← cell_strip c;
      if decide (val = "") then all_zero col rows'
      else
        stop ← Py.try_except
                 (f ← Py.float val; Ret (Py.float_ne_zero f))
                 ValueError
                 (Ret true);
        if stop : bool then Ret false else all_zero col rows'
  | [] => Ret true
  end.

Definition is_time_col (col : key) : bool :=
  bool_decide (col = Some "date") || bool_decide (col = Some "month").

(** The loop over [headers] of lines 59 to 78. *)
Definition find_zero_cols (headers : list key) (rows : list row)
  : result (gset key) :=
  Py.for_each headers
    (fun col (zero_cols : gset key) =>
       if is_time_col col then Ret ({[col]} ∪ zero_cols)
       else if decide (col = Some "timestamps") then Ret zero_cols
       else
         b ← all_zero col rows;
         if b : bool then Ret ({[col]} ∪ zero_cols) else Ret zero_cols)
    ∅.

(** [columns[col].append(v)] *)
Fixpoint append_to (columns : columns_t) (col : key) (v : value)
  : result columns_t :=
  match columns with
  | (k, vs) :: columns' =>
      if decide (k = col) then Ret ((k, vs ++ [v]) :: columns')
      else
        columns'' ← append_to columns' col v;
        Ret ((k, vs) :: columns'')
  | [] => Raise KeyError
  end.

(** The two loops of lines 83 to 85. *)
Definition build_columns (keep_cols : list key) (rows : list row)
  : result columns_t :=
  Py.for_each rows
    (fun row (columns : columns_t) =>
       Py.for_each keep_cols
         (fun col (columns : columns_t) =>
            vs ← Py.getitem columns col;
            c ← Py.getitem row col;
            v ← parse_value c;
            append_to columns col v)
         columns)
    ((fun col => (col, [])) <$> keep_cols).

(** What [convert] computes from the rows before it writes anything:
    [headers], [zero_cols], [keep_cols] and [columns]. *)
Record analysis := Analysis {
  headers : list key;
  zero_cols : gset key;
  keep_cols : list key;
  columns : columns_t
}.

(** [list(rows[0].keys())] *)
Definition headers_of (rows : list row) : list key :=
  match rows with
  | row0 :: _ => Py.keys row0
  | [] => []
  end.

Definition analyse (rows : list row) : result analysis :=
  let headers := headers_of rows in
  zero_cols ← find_zero_cols headers rows;
  let keep_cols := filter (fun c => c ∉ zero_cols) headers in
  columns ← build_columns keep_cols rows;
  Ret (Analysis headers zero_cols keep_cols columns).

(** A step of the script: from a world to the world it leaves and either
    a value or the exception that ended the step. *)
Definition io (A : Type) : Type := world -> world * result A.

Definition convert (csv_name json_name : string) : io unit := fun w =>
  match files w !! csv_name with
  | None => (w, Raise FileNotFoundError)
  | Some records =>
      let rows := Csv.DictReader records in
      match rows with
      | [] => (print (SkipEmpty csv_name) w, Ret ())
      | _ :: _ =>
          match analyse rows with
          | Raise e => (w, Raise e)
          | Ret a =>
              let w := write_json json_name (json_of_columns (columns a)) w in
              let orig_cols := Z.of_nat (length (headers a)) in
              let dropped := Z.of_nat (size (zero_cols a)) in
              match columns a with
              | [] => (w, Raise StopIteration)
              | (_, vs) :: _ =>
                  (print (Converted csv_name json_name (length vs)
                            (orig_cols - dropped) orig_cols (zero_cols a)) w,
                   Ret ())
              end
          end
      end
  end.

(** *** [main] *)

(** The loop of lines 98 to 103 over the items of the file map. *)
Fixpoint convert_all (items : list (string * string)) : io unit := fun w =>
  match items with
  | (csv_name, json_name) :: items' =>
      match files w !! csv_name with
      | None => convert_all items' (print (Missing csv_name) w)
      | Some _ =>
          match convert csv_name json_name w with
          | (w', Ret _) => convert_all items' w'
          | (w', Raise e) => (w', Raise e)
          end
      end
  | [] => (w, Ret ())
  end.

Definition main : io unit := fun w =>
  match convert_all FILE_MAP (print Banner w) with
  | (w', Ret _) => (print Done w', Ret ())
  | (w', Raise e) => (w', Raise e)
  end.

(** * The vocabulary of the properties *)

(** A text that is empty or consists of whitespace only. *)
Definition is_blank (s : string) : bool :=
  forallb Py.isspace (list_ascii_of_string s).

(** The data rows of a file: the records after the header that have at
    least one field. *)
Definition data_rows (records : list (list string)) : list (list string) :=
  filter (fun r => r ≠ []) (tail records).

(** A stripped, non-empty cell text parses as the numeric value zero. *)
Definition parses_as_zero (val : string) : Prop :=
  exists f, Py.float val = Ret f /\ Py.float_ne_zero f = false.

(** What the loop over the headers leaves in [zero_cols]. *)
Definition dropped_col (rows : list row) (col : key) : Prop :=
  is_time_col col = true \/
  (col ≠ Some "timestamps" /\ all_zero col rows = Ret true).

(** The value one row contributes to a column. *)
Definition coerced (col : key) (r : row) (v : value) : Prop :=
  exists c, Py.getitem r col = Ret c /\ parse_value c = Ret v.

(** The names the drop rule treats by name. *)
Definition named_cols : list key :=
  [Some "date"; Some "month"; Some "timestamps"].

(** The members of a JSON object. *)
Definition json_members (j : json) : list (string * json) :=
  match j with
  | JObject members => members
  | _ => []
  end.

(** What a step does to the world, told apart from the world it starts
    in: the documents it writes, in order, the lines it prints, and how
    it ends. *)
Record effect := Effect {
  writes : list (string * json);
  prints : list event;
  outcome : result unit
}.

Definition apply_writes (ws : list (string * json)) (m : gmap string json)
  : gmap string json :=
  fold_left (fun m kd => <[kd.1 := kd.2]> m) ws m.

Definition run_effect (eff : effect) (w : world) : world * result unit :=
  (World (files w) (apply_writes (writes eff) (written w))
         (stdout w ++ prints eff),
   outcome eff).

(** The effect of [convert] is a function of the two names and of what
    the input file holds. *)
Definition convert_effect
    (csv_name json_name : string) (content : option (list (list string)))
  : effect :=
  match content with
  | None => Effect [] [] (Raise FileNotFoundError)
  | Some records =>
      match Csv.DictReader records with
      | [] => Effect [] [SkipEmpty csv_name] (Ret ())
      | rows =>
          match analyse rows with
          | Raise e => Effect [] [] (Raise e)
          | Ret a =>
              let ws := [(json_name, json_of_columns (columns a))] in
              match columns a with
              | [] => Effect ws [] (Raise StopIteration)
              | (_, vs) :: _ =>
                  Effect ws
                    [Converted csv_name json_name (length vs)
                       (Z.of_nat (length (headers a))
                        - Z.of_nat (size (zero_cols a)))
                       (Z.of_nat (length (headers a))) (zero_cols a)]
                    (Ret ())
              end
          end
      end
  end.

#[local] Arguments convert_effect : simpl never.

(** The effect of the loop of [main] is a function of the file map and
    of the directory. *)
Fixpoint convert_all_effect
    (items : list (string * string)) (dir : gmap string (list (list string)))
  : effect :=
  match items with
  | (csv_name, json_name) :: items' =>
      match dir !! csv_name with
      | None =>
          let rest := convert_all_effect items' dir in
          Effect (writes rest) (Missing csv_name :: prints rest) (outcome rest)
      | Some records =>
          let eff := convert_effect csv_name json_name (Some records) in
          match outcome eff with
          | Ret _ =>
              let rest := convert_all_effect items' dir in
              Effect (writes eff ++ writes rest) (prints eff ++ prints rest)
                     (outcome rest)
          | Raise e => eff
          end
      end
  | [] => Effect [] [] (Ret ())
  end.

Definition main_effect (dir : gmap string (list (list string))) : effect :=
  let eff := convert_all_effect FILE_MAP dir in
  match outcome eff with
  | Ret _ => Effect (writes eff) (Banner :: prints eff ++ [Done]) (Ret ())
  | Raise e => Effect (writes eff) (Banner :: prints eff) (Raise e)
  end.

(** The last document a list of writes leaves under a name. *)
Fixpoint last_write (ws : list (string * json)) (k : string) : option json :=
  match ws with
  | kd :: ws' =>
      match last_write ws' k with
      | Some d => Some d
      | None => if decide (kd.1 = k) then Some kd.2 else None
      end
  | [] => None
  end.

(** A directory in which the first configured file exists, with the
    header [date] and one data row, and no other file. *)
Definition only_date_column : world :=
  World {[ "calculation.csv" := [["date"]; ["2024-01-01"]] ]} ∅ [].

(** Every data row has as many fields as the header. *)
Definition rectangular (records : list (list string)) : Prop :=
  forall r, r ∈ data_rows records -> length r = length (hd [] records).

(** No cell of a data row is an infinite number. *)
Definition finite_cells (records : list (list string)) : Prop :=
  forall r s b, r ∈ data_rows records -> s ∈ r ->
    Py.float (Py.strip s) ≠ Ret (S754_infinity b).

(** A file the script converts without an exception: rectangular, no
    infinite cell and, when it has data rows, a column the drop rule
    keeps. *)
Definition convertible (records : list (list string)) : Prop :=
  rectangular records /\ finite_cells records /\
  (data_rows records = [] \/
   exists col, col ∈ headers_of (Csv.DictReader records) /\
               ~ dropped_col (Csv.DictReader records) col).

#[global] Instance spec_float_eq_dec : EqDecision spec_float.
Proof. solve_decision. Defined.
#[global] Instance cell_eq_dec : EqDecision cell.
Proof. solve_decision. Defined.
#[global] Instance value_eq_dec : EqDecision value.
Proof. solve_decision. Defined.

(** Three data rows; the column [a] holds zeros and a blank, the column
    [b] a text that is no number, the column [c] an empty cell. *)
Definition sample_records : list (list string) :=
  [ ["timestamps"; "a"; "b"; "c"];
    ["0"; "0"; "1"; "5"];
    ["1"; " "; "x"; ""];
    ["2"; "0.0"; "3"; "7.25"] ].

(** Two data rows; the time stamps are all zero, and so is [idle]. *)
Definition sample_time_records : list (list string) :=
  [ ["date"; "month"; "timestamps"; "idle"; "load"];
    ["2024-01-01"; "1"; "0"; ""; "2.5"];
    ["2024-01-02"; "1"; "0"; "  "; "abc"] ].

Ltac decide_by_computation := apply (bool_decide_unpack _); vm_compute; exact I.

(** A directory whose first configured file has a header and blank
    lines only. *)
Definition header_only : world :=
  World {[ "calculation.csv" := [["timestamps"; "a"]; []; []] ]} ∅ [].

(** ** Vocabulary of the further properties *)

(** The input file a printed line is about. *)
Definition event_csv (ev : event) : option string :=
  match ev with
  | Missing csv_name => Some csv_name
  | SkipEmpty csv_name => Some csv_name
  | Converted csv_name _ _ _ _ _ => Some csv_name
  | Banner | Done => None
  end.

(** A directory that holds the first configured file only, with the
    sample data. *)
Definition sample_world : world :=
  World {[ "calculation.csv" := sample_records ]} ∅ [].

(** * Properties *)

(** ** Whitespace and [strip] *)

Lemma lstrip_blank s : is_blank s = true -> Py.lstrip_by Py.isspace s = "".
Proof.
  unfold is_blank. induction s as [|c s IH]; simpl; [done|].
  intros [Hc Hs]%andb_prop. rewrite Hc. auto.
Qed.

Lemma rstrip_blank s : Py.rstrip_by Py.isspace s = "" <-> is_blank s = true.
Proof.
  unfold is_blank. induction s as [|c s IH]; simpl; [done|].
  destruct (Py.rstrip_by Py.isspace s) eqn:Hr.
  - destruct (Py.isspace c); simpl; [tauto|]. split; done.
  - split; [done|]. intros [_ Hs]%andb_prop. apply IH in Hs. done.
Qed.

Lemma is_blank_lstrip s : is_blank (Py.lstrip_by Py.isspace s) = is_blank s.
Proof.
  unfold is_blank. induction s as [|c s IH]; simpl; [done|].
  destruct (Py.isspace c) eqn:Hc; simpl; [done|]. by rewrite Hc.
Qed.

(** [s.strip()] is empty exactly when [s] is blank. *)
Lemma strip_blank s : Py.strip s = "" <-> is_blank s = true.
Proof. unfold Py.strip. by rewrite rstrip_blank, is_blank_lstrip. Qed.

(** ** Dictionaries *)

Section DictFacts.
Context {K V : Type} `{EqDecision K}.
Implicit Types (d : list (K * V)) (k : K) (v : V).

Lemma keys_setitem_in d k v :
  k ∈ Py.keys d -> Py.keys (Py.setitem d k v) = Py.keys d.
Proof.
  unfold Py.keys. induction d as [|[k' v'] d IH]; simpl.
  - by intros ?%elem_of_nil.
  - intros Hin. destruct (decide (k' = k)); simpl; [done|].
    f_equal. apply IH. apply elem_of_cons in Hin as [?|?]; [congruence|done].
Qed.

Lemma keys_setitem_notin d k v :
  k ∉ Py.keys d -> Py.keys (Py.setitem d k v) = Py.keys d ++ [k].
Proof.
  unfold Py.keys. induction d as [|[k' v'] d IH]; simpl; [done|].
  intros Hin. apply not_elem_of_cons in Hin as [? ?].
  destruct (decide (k' = k)); simpl; [congruence|]. f_equal. auto.
Qed.

Lemma NoDup_keys_setitem d k v :
  NoDup (Py.keys d) -> NoDup (Py.keys (Py.setitem d k v)).
Proof.
  intros Hd. destruct (decide (k ∈ Py.keys d)) as [Hin|Hin].
  - by rewrite keys_setitem_in.
  - rewrite keys_setitem_notin; [|done].
    apply NoDup_app. split_and!; [done| |apply NoDup_singleton].
    intros x Hx ->%list_elem_of_singleton. done.
Qed.

Lemma elem_of_keys_setitem d k v k' :
  k' ∈ Py.keys (Py.setitem d k v) <-> k' = k \/ k' ∈ Py.keys d.
Proof.
  destruct (decide (k ∈ Py.keys d)) as [Hin|Hin].
  - rewrite keys_setitem_in; [|done].
    split; [by right|]. by intros [->|?].
  - rewrite keys_setitem_notin; [|done].
    rewrite elem_of_app, list_elem_of_singleton. tauto.
Qed.

Lemma NoDup_keys_fold_setitem {A} (f : A -> K * V) (l : list A) d :
  NoDup (Py.keys d) ->
  NoDup (Py.keys (fold_left (fun d a => Py.setitem d (f a).1 (f a).2) l d)).
Proof.
  revert d. induction l as [|a l IH]; simpl; [done|].
  intros d Hd. apply IH. by apply NoDup_keys_setitem.
Qed.

Lemma NoDup_keys_dict_of (items : list (K * V)) :
  NoDup (Py.keys (Py.dict_of items)).
Proof.
  unfold Py.dict_of.
  apply (NoDup_keys_fold_setitem (fun kv => kv)). apply NoDup_nil_2.
Qed.

(** [d[k]] raises nothing but [KeyError], and only for an absent key. *)
Lemma getitem_Ret d k : k ∈ Py.keys d -> exists v, Py.getitem d k = Ret v.
Proof.
  unfold Py.keys. induction d as [|[k' v'] d IH]; simpl.
  - by intros ?%elem_of_nil.
  - intros Hin. destruct (decide (k' = k)); [eauto|].
    apply IH. apply elem_of_cons in Hin as [?|?]; [congruence|done].
Qed.

Lemma getitem_Ret_inv d k v : Py.getitem d k = Ret v -> (k, v) ∈ d.
Proof.
  induction d as [|[k' v'] d IH]; simpl; [done|].
  destruct (decide (k' = k)) as [->|].
  - intros [= ->]. apply elem_of_cons. by left.
  - intros Hg. apply elem_of_cons. right. auto.
Qed.

Lemma getitem_elem_of d k v :
  NoDup (Py.keys d) -> (k, v) ∈ d -> Py.getitem d k = Ret v.
Proof.
  unfold Py.keys. induction d as [|[k' v'] d IH]; simpl.
  - by intros _ ?%elem_of_nil.
  - intros [Hk' Hd]%NoDup_cons [Heq|Hin]%elem_of_cons.
    + injection Heq as -> ->. by rewrite decide_True.
    + destruct (decide (k' = k)) as [->|]; [|auto].
      exfalso. apply Hk'. apply list_elem_of_fmap. by exists (k, v).
Qed.

Lemma getitem_Raise d k e : Py.getitem d k = Raise e -> e = KeyError /\ k ∉ Py.keys d.
Proof.
  unfold Py.keys. induction d as [|[k' v'] d IH]; simpl.
  - intros [= <-]. split; [done|]. apply not_elem_of_nil.
  - destruct (decide (k' = k)); [done|]. intros [-> Hk]%IH.
    split; [done|]. apply not_elem_of_cons. split; [congruence|done].
Qed.
End DictFacts.

(** ** Rows of [DictReader] *)

Lemma NoDup_keys_row_of fieldnames record :
  NoDup (Py.keys (Csv.row_of fieldnames record)).
Proof.
  unfold Csv.row_of. repeat case_decide.
  - apply NoDup_keys_setitem, NoDup_keys_dict_of.
  - apply (NoDup_keys_fold_setitem (fun k => (Some k, CNone))).
    apply NoDup_keys_dict_of.
  - apply NoDup_keys_dict_of.
Qed.

Lemma DictReader_data_rows records :
  Csv.DictReader records = Csv.row_of (hd [] records) <$> data_rows records.
Proof. by destruct records. Qed.

Lemma DictReader_length records :
  length (Csv.DictReader records) = length (data_rows records).
Proof. rewrite DictReader_data_rows. apply length_fmap. Qed.

Lemma NoDup_keys_DictReader records row :
  row ∈ Csv.DictReader records -> NoDup (Py.keys row).
Proof.
  rewrite DictReader_data_rows.
  intros (r & -> & _)%list_elem_of_fmap. apply NoDup_keys_row_of.
Qed.

(** ** The drop set *)

(** [float] raises nothing but [ValueError]. *)
Lemma float_Raise val e : Py.float val = Raise e -> e = ValueError.
Proof. unfold Py.float. destruct (Py.float_literal _); congruence. Qed.

(** The scan of a column says "all zero" exactly when each of its cells
    is a text that is blank or parses as zero. *)
Lemma all_zero_true col rows :
  all_zero col rows = Ret true <->
  forall row, row ∈ rows ->
    exists s, Py.getitem row col = Ret (CStr s) /\
      (Py.strip s = "" \/ parses_as_zero (Py.strip s)).
Proof.
  induction rows as [|row rows IH]; simpl_result.
  - split; [|done]. by intros _ row ?%elem_of_nil.
  - setoid_rewrite elem_of_cons.
    destruct (Py.getitem row col) as [c|e] eqn:Hc; simpl_result.
    2:{ split; [intros; simplify_eq|]. intros H. destruct (H row) as (s & ? & _); [by left|congruence]. }
    destruct c as [s| |l]; simpl_result.
    2,3: split; [intros; simplify_eq|]; intros H; destruct (H row) as (s & ? & _); [by left|congruence].
    case_decide as Hs.
    { rewrite IH. split.
      - intros H r [->|Hr]; [|by auto]. exists s. by rewrite Hc; auto.
      - intros H r Hr. apply H. by right. }
    destruct (Py.float (Py.strip s)) as [f|e] eqn:Hf; simpl_result.
    + destruct (Py.float_ne_zero f) eqn:Hz.
      * split; [intros; simplify_eq|]. intros H. destruct (H row) as (s' & Hs' & Hz'); [by left|].
        assert (s' = s) as -> by congruence. destruct Hz' as [?|(f' & Hf' & Hz')]; [done|].
        congruence.
      * rewrite IH. split.
        -- intros H r [->|Hr]; [|by auto]. exists s. split; [done|].
           right. by exists f.
        -- intros H r Hr. apply H. by right.
    + apply float_Raise in Hf as Hv. subst e. simpl_result.
      split; [intros; simplify_eq|]. intros H. destruct (H row) as (s' & Hs' & Hz'); [by left|].
      assert (s' = s) as -> by congruence. destruct Hz' as [?|(f' & Hf' & Hz')]; [done|].
      congruence.
Qed.

Lemma find_zero_cols_acc (hs : list key) (rows : list row) (acc zc : gset key) :
  Py.for_each hs
    (fun col (zero_cols : gset key) =>
       if is_time_col col then Ret ({[col]} ∪ zero_cols)
       else if decide (col = Some "timestamps") then Ret zero_cols
       else
         b ← all_zero col rows;
         if b : bool then Ret ({[col]} ∪ zero_cols) else Ret zero_cols)
    acc = Ret zc ->
  forall col, col ∈ zc <-> col ∈ acc \/ (col ∈ hs /\ dropped_col rows col).
Proof.
  revert acc. induction hs as [|h hs IH]; simpl_result; intros acc.
  - intros [= <-] col. rewrite elem_of_nil. tauto.
  - assert (Hadd : forall col : key,
      dropped_col rows h ->
      col ∈ {[h]} ∪ acc \/ col ∈ hs /\ dropped_col rows col <->
      col ∈ acc \/ (col = h \/ col ∈ hs) /\ dropped_col rows col).
    { intros col Hh. rewrite elem_of_union, elem_of_singleton.
      split; [intros [[->|?]|[? ?]]; tauto|tauto]. }
    assert (Hskip : forall col : key,
      ~ dropped_col rows h ->
      col ∈ acc \/ col ∈ hs /\ dropped_col rows col <->
      col ∈ acc \/ (col = h \/ col ∈ hs) /\ dropped_col rows col).
    { intros col Hh. split; [tauto|]. intros [?|[[->|?] ?]]; tauto. }
    unfold dropped_col in Hadd, Hskip |- *.
    destruct (is_time_col h) eqn:Ht; simpl_result.
    { intros H col. rewrite (IH _ H), elem_of_cons. apply Hadd. by left. }
    case_decide as Hts; simpl_result.
    { intros H col. rewrite (IH _ H), elem_of_cons. apply Hskip.
      intros [?|[? _]]; done. }
    destruct (all_zero h rows) as [[]|e] eqn:Hz; simpl_result; [| |done].
    + intros H col. rewrite (IH _ H), elem_of_cons. apply Hadd. by right.
    + intros H col. rewrite (IH _ H), elem_of_cons. apply Hskip.
      intros [?|[_ ?]]; done.
Qed.

Lemma find_zero_cols_spec (hs : list key) (rows : list row) zc :
  find_zero_cols hs rows = Ret zc ->
  forall col, col ∈ zc <-> col ∈ hs /\ dropped_col rows col.
Proof.
  intros H col. apply find_zero_cols_acc with (col := col) in H.
  rewrite H, elem_of_empty. tauto.
Qed.

(** ** The columns *)

Lemma append_to_spec (cols cols' : columns_t) col v :
  append_to cols col v = Ret cols' ->
  Py.keys cols' = Py.keys cols /\
  (exists vs, Py.getitem cols col = Ret vs /\
              Py.getitem cols' col = Ret (vs ++ [v])) /\
  (forall k, k ≠ col -> Py.getitem cols' k = Py.getitem cols k).
Proof.
  revert cols'. induction cols as [|[k vs] cols IH]; intros cols'; simpl_result; [done|].
  destruct (decide (k = col)) as [->|Hk].
  - intros [= <-]. simpl. rewrite !decide_True by done.
    split_and!; [done|by eauto|]. intros k Hk. by rewrite !decide_False.
  - destruct (append_to cols col v) as [cols''|e] eqn:Ha; simpl_result; [|done].
    intros [= <-]. destruct (IH _ eq_refl) as (Hkeys & (vs' & Hg & Hg') & Hother).
    simpl. rewrite !decide_False by done. split_and!.
    + unfold Py.keys in *. simpl. by f_equal.
    + eauto.
    + intros k' Hk'. destruct (decide (k = k')); [done|]. by apply Hother.
Qed.

(** One row appends its coerced cell to each kept column and leaves the
    others alone. *)
Lemma build_row_spec (keep : list key) (r : row) (cols cols' : columns_t) :
  NoDup keep ->
  Py.for_each keep
    (fun col (columns : columns_t) =>
       vs ← Py.getitem columns col;
       c ← Py.getitem r col;
       v ← parse_value c;
       append_to columns col v)
    cols = Ret cols' ->
  Py.keys cols' = Py.keys cols /\
  (forall col, col ∈ keep ->
     exists v vs, coerced col r v /\ Py.getitem cols col = Ret vs /\
                  Py.getitem cols' col = Ret (vs ++ [v])) /\
  (forall col, col ∉ keep -> Py.getitem cols' col = Py.getitem cols col).
Proof.
  revert cols. induction keep as [|k keep IH]; intros cols Hnd; simpl_result.
  - intros [= <-]. split_and!; [done| |done]. by intros col ?%elem_of_nil.
  - apply NoDup_cons in Hnd as [Hk Hnd].
    destruct (Py.getitem cols k) as [vs0|] eqn:Hg0; simpl_result; [|done].
    destruct (Py.getitem r k) as [c|] eqn:Hc; simpl_result; [|done].
    destruct (parse_value c) as [v|] eqn:Hv; simpl_result; [|done].
    destruct (append_to cols k v) as [cols1|] eqn:Ha; simpl_result; [|done].
    intros Hrest. apply append_to_spec in Ha as (Hkeys1 & (vs & Hg & Hg1) & Hother1).
    destruct (IH _ Hnd Hrest) as (Hkeys & Hin & Hout).
    split_and!.
    + congruence.
    + intros col [->|Hcol]%elem_of_cons.
      * exists v, vs. split_and!; [by exists c|done|]. by rewrite Hout.
      * destruct (Hin col Hcol) as (v' & vs' & ? & Hg' & ?).
        exists v', vs'. split_and!; [done| |done].
        rewrite <- Hg'. symmetry. apply Hother1. by intros ->.
    + intros col [Hne Hcol]%not_elem_of_cons.
      rewrite Hout by done. by apply Hother1.
Qed.

Lemma build_rows_spec (keep : list key) (rows : list row) (cols cols' : columns_t) :
  NoDup keep ->
  Py.for_each rows
    (fun r (columns : columns_t) =>
       Py.for_each keep
         (fun col (columns : columns_t) =>
            vs ← Py.getitem columns col;
            c ← Py.getitem r col;
            v ← parse_value c;
            append_to columns col v)
         columns)
    cols = Ret cols' ->
  Py.keys cols' = Py.keys cols /\
  (forall col vs0, col ∈ keep -> Py.getitem cols col = Ret vs0 ->
     exists vs, Py.getitem cols' col = Ret (vs0 ++ vs) /\
                Forall2 (coerced col) rows vs).
Proof.
  intros Hnd. revert cols. induction rows as [|r rows IH]; intros cols; simpl_result.
  - intros [= <-]. split; [done|]. intros col vs0 _ Hg.
    exists []. rewrite app_nil_r. split; [done|constructor].
  - match goal with |- context [Py.for_each keep ?f cols] =>
      destruct (Py.for_each keep f cols) as [cols1|] eqn:Hrow end;
      simpl_result; [|done].
    intros Hrest. apply build_row_spec in Hrow as (Hkeys1 & Hin1 & _); [|done].
    destruct (IH _ Hrest) as (Hkeys & Hin). split; [congruence|].
    intros col vs0 Hcol Hg.
    destruct (Hin1 col Hcol) as (v & vs0' & Hco & Hg' & Hg1).
    assert (vs0' = vs0) as -> by congruence.
    destruct (Hin col _ Hcol Hg1) as (vs & Hfin & Hall).
    exists (v :: vs). rewrite <- app_assoc in Hfin. split; [done|].
    by constructor.
Qed.

Lemma getitem_fresh_columns (keep : list key) col :
  col ∈ keep ->
  Py.getitem ((fun col => (col, @nil value)) <$> keep) col = Ret [].
Proof.
  induction keep as [|k keep IH]; simpl.
  - by intros ?%elem_of_nil.
  - intros Hin. destruct (decide (k = col)); [done|].
    apply IH. apply elem_of_cons in Hin as [?|?]; [congruence|done].
Qed.

Lemma keys_fresh_columns (keep : list key) :
  Py.keys ((fun col => (col, @nil value)) <$> keep) = keep.
Proof.
  unfold Py.keys. rewrite <- list_fmap_compose. simpl. apply list_fmap_id.
Qed.

(** The document is column-wise what the loops build row-wise: the kept
    columns in their order, each with the coerced cells of all rows. *)
Lemma build_columns_spec (keep : list key) (rows : list row) (cols : columns_t) :
  NoDup keep ->
  build_columns keep rows = Ret cols ->
  Py.keys cols = keep /\
  (forall col vs, (col, vs) ∈ cols -> Forall2 (coerced col) rows vs).
Proof.
  intros Hnd Hb. unfold build_columns in Hb.
  apply build_rows_spec in Hb as [Hkeys Hin]; [|done].
  rewrite keys_fresh_columns in Hkeys. split; [done|].
  intros col vs Hvs.
  assert (Hcol : col ∈ keep).
  { rewrite <- Hkeys. apply list_elem_of_fmap. by exists (col, vs). }
  destruct (Hin col [] Hcol (getitem_fresh_columns _ _ Hcol)) as (vs' & Hg & Hall).
  apply getitem_elem_of in Hvs; [|by rewrite Hkeys]. simpl in Hg.
  by assert (vs' = vs) as <- by congruence.
Qed.

(** ** What [convert] computes and writes *)

Lemma analyse_inv (rows : list row) a :
  analyse rows = Ret a ->
  headers a = headers_of rows /\
  find_zero_cols (headers_of rows) rows = Ret (zero_cols a) /\
  keep_cols a = filter (fun c => c ∉ zero_cols a) (headers_of rows) /\
  build_columns (keep_cols a) rows = Ret (columns a).
Proof.
  unfold analyse. simpl_result.
  destruct (find_zero_cols (headers_of rows) rows) as [zc|]; simpl_result; [|done].
  destruct (build_columns _ rows) as [cols|] eqn:Hb; simpl_result; [|done].
  by intros [= <-].
Qed.

Lemma NoDup_headers_of records : NoDup (headers_of (Csv.DictReader records)).
Proof.
  destruct (Csv.DictReader records) as [|row0 rows] eqn:Hr; simpl.
  - apply NoDup_nil_2.
  - apply (NoDup_keys_DictReader records). rewrite Hr. apply elem_of_cons. by left.
Qed.

(** The document has the kept columns, in header order, and each column
    holds the coerced cells of the rows, in row order. *)
Lemma analyse_columns records a :
  analyse (Csv.DictReader records) = Ret a ->
  Py.keys (columns a) = filter (fun c => c ∉ zero_cols a) (headers a) /\
  (forall col vs, (col, vs) ∈ columns a ->
     Forall2 (coerced col) (Csv.DictReader records) vs).
Proof.
  intros (Hh & _ & Hk & Hb)%analyse_inv.
  apply build_columns_spec in Hb as [Hkeys Hcols].
  - split; [congruence|done].
  - rewrite Hk. apply NoDup_filter, NoDup_headers_of.
Qed.

Lemma elem_of_keys_columns records a col :
  analyse (Csv.DictReader records) = Ret a ->
  col ∈ Py.keys (columns a) <-> col ∈ headers a /\ col ∉ zero_cols a.
Proof.
  intros [-> _]%analyse_columns. rewrite list_elem_of_filter. tauto.
Qed.

(** The three ways [convert] ends on a file that exists: no data row,
    an exception before anything is written, or a written document
    (after which the report line may still fail). *)
Lemma convert_cases csv_name json_name w records :
  files w !! csv_name = Some records ->
  let rows := Csv.DictReader records in
  (rows = [] /\
   convert csv_name json_name w = (print (SkipEmpty csv_name) w, Ret ()))
  \/ (exists e, rows ≠ [] /\ analyse rows = Raise e /\
        convert csv_name json_name w = (w, Raise e))
  \/ (exists a, rows ≠ [] /\ analyse rows = Ret a /\
        let w' := write_json json_name (json_of_columns (columns a)) w in
        (columns a = [] /\
         convert csv_name json_name w = (w', Raise StopIteration))
        \/ (exists n, columns a ≠ [] /\
              convert csv_name json_name w =
                (print (Converted csv_name json_name n
                          (Z.of_nat (length (headers a))
                           - Z.of_nat (size (zero_cols a)))
                          (Z.of_nat (length (headers a))) (zero_cols a)) w',
                 Ret ()))).
Proof.
  intros Hf rows. unfold convert. rewrite Hf. fold rows.
  destruct rows as [|row0 rows'] eqn:Hrows; [by left|]. right.
  destruct (analyse (row0 :: rows')) as [a|e] eqn:Ha.
  - right. exists a. split_and!; [done..|].
    destruct (columns a) as [|[k vs] cols] eqn:Hc; [by left|].
    right. exists (length vs). done.
  - left. by exists e.
Qed.

(** ** The drop rule (claims C2, C5, C10) *)

Lemma not_named_col col :
  col ∉ named_cols -> is_time_col col = false /\ col ≠ Some "timestamps".
Proof.
  unfold named_cols, is_time_col. rewrite !not_elem_of_cons.
  intros (? & ? & ? & _). by rewrite !bool_decide_eq_false_2.
Qed.

(** A scan that says "not all zero" met a cell that is a text, not blank
    and not a zero. *)
Lemma all_zero_false col (rows : list row) :
  all_zero col rows = Ret false ->
  exists r s, r ∈ rows /\ Py.getitem r col = Ret (CStr s) /\
    Py.strip s ≠ "" /\ ~ parses_as_zero (Py.strip s).
Proof.
  induction rows as [|r rows IH]; simpl_result; [done|].
  setoid_rewrite elem_of_cons.
  destruct (Py.getitem r col) as [c|] eqn:Hc; simpl_result; [|done].
  destruct c as [s| |l]; simpl_result; [|done..].
  case_decide as Hs.
  { intros (r' & s' & ? & ?)%IH. exists r', s'. tauto. }
  intros H. destruct (Py.float (Py.strip s)) as [f|e] eqn:Hf; simpl_result.
  - destruct (Py.float_ne_zero f) eqn:Hz.
    + exists r, s. split_and!; [by left|done..|].
      intros (f' & Hf' & Hz'). congruence.
    + apply IH in H as (r' & s' & ? & ?). exists r', s'. tauto.
  - exists r, s. split_and!; [by left|done..|].
    intros (f' & Hf' & Hz'). congruence.
Qed.

(** When the loop over the headers ends, it has scanned every column it
    does not treat by name. *)
Lemma find_zero_cols_scanned (hs : list key) (rows : list row) zc col :
  find_zero_cols hs rows = Ret zc ->
  col ∈ hs -> col ∉ named_cols ->
  exists b, all_zero col rows = Ret b.
Proof.
  unfold find_zero_cols. generalize (∅ : gset key).
  induction hs as [|h hs IH]; intros acc; simpl_result.
  - by intros _ ?%elem_of_nil.
  - intros H [->|Hin]%elem_of_cons Hn.
    + apply not_named_col in Hn as [Ht Hts]. rewrite Ht in H.
      rewrite decide_False in H by done.
      destruct (all_zero h rows) as [b|]; [by exists b|done].
    + destruct (is_time_col h); [by eapply IH|].
      case_decide; [by eapply IH|].
      destruct (all_zero h rows) as [[]|]; simpl_result; [by eapply IH..|done].
Qed.

(** C2. In a file with at least one data row, a column that is not named
    [date], [month] or [timestamps] is in the drop set if and only if
    every one of its cells that is not blank parses as the numeric value
    zero.  A column with a non-blank cell that is no number, or that is a
    number other than zero, is retained: it is not in the drop set, and
    it is a key of the document the script writes. *)
Theorem drop_set_iff_all_zero (records : list (list string)) (col : key) :
  let rows := Csv.DictReader records in
  col ∈ headers_of rows -> col ∉ named_cols ->
  (forall zc, find_zero_cols (headers_of rows) rows = Ret zc ->
     (col ∈ zc <->
      forall r s, r ∈ rows -> Py.getitem r col = Ret (CStr s) ->
        Py.strip s ≠ "" -> parses_as_zero (Py.strip s))) /\
  (forall a r s, analyse rows = Ret a ->
     r ∈ rows -> Py.getitem r col = Ret (CStr s) -> Py.strip s ≠ "" ->
     Py.float (Py.strip s) = Raise ValueError \/
       (exists f, Py.float (Py.strip s) = Ret f /\ Py.float_ne_zero f = true) ->
     (col ∉ zero_cols a) /\ col ∈ keep_cols a /\ col ∈ Py.keys (columns a)).
Proof.
  intros rows Hcol Hn.
  assert (Hiff : forall zc, find_zero_cols (headers_of rows) rows = Ret zc ->
     (col ∈ zc <->
      forall r s, r ∈ rows -> Py.getitem r col = Ret (CStr s) ->
        Py.strip s ≠ "" -> parses_as_zero (Py.strip s))).
  { intros zc Hzc. rewrite (find_zero_cols_spec _ _ _ Hzc col).
    destruct (not_named_col _ Hn) as [Ht Hts]. unfold dropped_col. rewrite Ht.
    split.
    - intros [_ [?|[_ Hz]]]; [done|].
      intros r s Hr Hg Hs. rewrite all_zero_true in Hz.
      destruct (Hz r Hr) as (s' & Hg' & [?|?]);
        assert (s' = s) as -> by congruence; done.
    - intros Hall. split; [done|]. right. split; [done|].
      destruct (find_zero_cols_scanned _ _ _ _ Hzc Hcol Hn) as [[] Hb]; [done|].
      apply all_zero_false in Hb as (r & s & Hr & Hg & Hs & Hz).
      destruct Hz. eauto. }
  split; [done|].
  intros a r s Ha Hr Hg Hs Hcell.
  destruct (analyse_inv _ _ Ha) as (Hh & Hzc & Hk & _).
  assert (Hnot : col ∉ zero_cols a).
  { rewrite (Hiff _ Hzc). intros Hall.
    destruct (Hall r s Hr Hg Hs) as (f & Hf & Hz).
    destruct Hcell as [?|(f' & ? & ?)]; congruence. }
  split_and!; [done| |].
  - rewrite Hk. by apply list_elem_of_filter.
  - apply (elem_of_keys_columns records); [done|]. by rewrite Hh.
Qed.

(** C5. A column named [date] or [month] is in the drop set and is no key
    of the document, whatever its cells hold; a column named [timestamps]
    is never in the drop set and is a key of the document, also when each
    of its cells parses as zero. *)
Theorem time_columns_dropped_timestamps_kept
    (records : list (list string)) (a : analysis) :
  let rows := Csv.DictReader records in
  analyse rows = Ret a ->
  (forall col, col = Some "date" \/ col = Some "month" ->
     (col ∉ Py.keys (columns a)) /\
     (col ∈ headers_of rows -> col ∈ zero_cols a)) /\
  (Some "timestamps" ∈ headers_of rows ->
     (Some "timestamps" ∉ zero_cols a) /\
     Some "timestamps" ∈ Py.keys (columns a)).
Proof.
  intros rows Ha. destruct (analyse_inv _ _ Ha) as (Hh & Hzc & _ & _).
  pose proof (find_zero_cols_spec _ _ _ Hzc) as Hspec.
  split.
  - intros col Hcol.
    assert (Ht : is_time_col col = true) by (by destruct Hcol as [->| ->]).
    assert (Hdrop : col ∈ headers_of rows -> col ∈ zero_cols a).
    { intros Hin. apply Hspec. split; [done|]. by left. }
    split; [|done].
    rewrite (elem_of_keys_columns records) by done. rewrite Hh. tauto.
  - intros Hin.
    assert (Hnot : Some "timestamps" ∉ zero_cols a).
    { rewrite Hspec. intros [_ [?|[? _]]]; done. }
    split; [done|].
    apply (elem_of_keys_columns records); [done|]. by rewrite Hh.
Qed.

(** C10. A column that is not named [timestamps], [date] or [month] and
    whose cells are all blank is added to the drop set and is no key of
    the document: with no cell to test, the scan finds nothing against
    it. *)
Theorem blank_column_dropped (records : list (list string)) (col : key) :
  let rows := Csv.DictReader records in
  col ∈ headers_of rows -> col ∉ named_cols ->
  (forall r, r ∈ rows ->
     exists s, Py.getitem r col = Ret (CStr s) /\ is_blank s = true) ->
  all_zero col rows = Ret true /\
  (forall zc, find_zero_cols (headers_of rows) rows = Ret zc -> col ∈ zc) /\
  (forall a, analyse rows = Ret a ->
     col ∈ zero_cols a /\ col ∉ Py.keys (columns a)).
Proof.
  intros rows Hcol Hn Hblank.
  assert (Hz : all_zero col rows = Ret true).
  { apply all_zero_true. intros r Hr.
    destruct (Hblank r Hr) as (s & Hg & Hs). exists s. split; [done|].
    left. by apply strip_blank. }
  assert (Hzc : forall zc,
    find_zero_cols (headers_of rows) rows = Ret zc -> col ∈ zc).
  { intros zc H. apply (find_zero_cols_spec _ _ _ H). split; [done|].
    right. split; [|done]. by apply not_named_col. }
  split_and!; [done..|].
  intros a Ha. destruct (analyse_inv _ _ Ha) as (_ & H & _ & _).
  split; [by apply Hzc|].
  rewrite (elem_of_keys_columns records) by done.
  intros [_ Hnot]. apply Hnot. by apply Hzc.
Qed.

(** ** The columnar document (claim C4) *)

(** C4. In the document written for a file with at least one data row,
    every column has as many values as the file has data rows, and its
    value at each position is the coercion of the column's cell in the
    row at that position. *)
Theorem columns_follow_rows
    (records : list (list string)) (a : analysis) (col : key) (vs : list value) :
  let rows := Csv.DictReader records in
  analyse rows = Ret a ->
  (col, vs) ∈ columns a ->
  length vs = length (data_rows records) /\
  forall (i : nat) (r : row), rows !! i = Some r ->
    exists c v, Py.getitem r col = Ret c /\ parse_value c = Ret v /\
                vs !! i = Some v.
Proof.
  intros rows Ha Hin.
  destruct (analyse_columns _ _ Ha) as [_ Hcols].
  specialize (Hcols col vs Hin). split.
  - rewrite <- DictReader_length. symmetry. by eapply Forall2_length.
  - intros i r Hr.
    destruct (Forall2_lookup_l _ _ _ _ _ Hcols Hr) as (v & Hv & c & Hc & Hp).
    by exists c, v.
Qed.

(** ** Value coercion (claims C3, C6, C7) *)

(** C7. A cell that is empty or holds whitespace only is coerced to
    [None], which is written as [null]: in the array the written document
    has for the cell's column, the entry at the position of the cell's
    row is [null]. *)
Theorem blank_cell_is_null (s : string) :
  is_blank s = true ->
  parse_value (CStr s) = Ret VNone /\
  json_of_value VNone = JNull /\
  forall records a col vs (i : nat) r,
    analyse (Csv.DictReader records) = Ret a ->
    (col, vs) ∈ columns a ->
    Csv.DictReader records !! i = Some r ->
    Py.getitem r col = Ret (CStr s) ->
    exists items,
      (json_of_key col, JArray items)
        ∈ json_members (json_of_columns (columns a)) /\
      items !! i = Some JNull.
Proof.
  intros Hs.
  assert (Hp : parse_value (CStr s) = Ret VNone).
  { unfold parse_value. simpl_result. apply strip_blank in Hs. rewrite Hs. done. }
  split_and!; [done..|].
  intros records a col vs i r Ha Hin Hr Hg.
  exists (json_of_value <$> vs). split.
  - simpl. apply list_elem_of_fmap. by exists (col, vs).
  - destruct (analyse_columns _ _ Ha) as [_ Hcols].
    destruct (Forall2_lookup_l _ _ _ _ _ (Hcols col vs Hin) Hr)
      as (v & Hv & c & Hc & Hpv).
    assert (c = CStr s) as -> by congruence.
    assert (v = VNone) as -> by congruence.
    by rewrite list_lookup_fmap, Hv.
Qed.

(** C6, as the specification states it, fails: the text returned for a
    cell that is no number is the stripped text, not the cell as it
    stands. *)
Lemma unparseable_cell_is_stripped :
  Py.float " abc " = Raise ValueError /\
  parse_value (CStr " abc ") = Ret (VStr "abc") /\
  ~ (forall s, Py.float s = Raise ValueError ->
               parse_value (CStr s) = Ret (VStr s)).
Proof.
  split_and!; [by vm_compute..|].
  intros H. specialize (H " abc " eq_refl). vm_compute in H. congruence.
Qed.

(** C6, amended. For a cell that is not blank and whose stripped text is
    no number, the coercion returns the stripped text: the cell without
    the whitespace around it, hence the cell itself when it has none. *)
Theorem unparseable_cell_kept_stripped (s : string) :
  is_blank s = false ->
  Py.float (Py.strip s) = Raise ValueError ->
  parse_value (CStr s) = Ret (VStr (Py.strip s)) /\
  (Py.strip s = s -> parse_value (CStr s) = Ret (VStr s)).
Proof.
  intros Hb Hf.
  assert (Hp : parse_value (CStr s) = Ret (VStr (Py.strip s))).
  { unfold parse_value. simpl_result. rewrite decide_False.
    - by rewrite Hf.
    - rewrite strip_blank. congruence. }
  split; [done|]. intros Hs. by rewrite Hs in Hp.
Qed.

(** C3 fails on the code: [1e3] is a number, whole and written without a
    point, and yet the coercion returns the text, because [int] does not
    read the exponent notation and the handler takes its [ValueError]. *)
Theorem exponent_cell_stays_text :
  Py.float "1e3" = Ret (Py.float_of_decimal false 1000 0) /\
  Py.int_of_float (Py.float_of_decimal false 1000 0) = Ret 1000 /\
  Py.float_eq_int (Py.float_of_decimal false 1000 0) 1000 = true /\
  Py.contains "."%char "1e3" = false /\
  Py.int "1e3" = Raise ValueError /\
  parse_value (CStr "1e3") = Ret (VStr "1e3").
Proof. split_and!; by vm_compute. Qed.

(** ** Files without data rows (claim C8) *)

Lemma DictReader_nil records :
  data_rows records = [] -> Csv.DictReader records = [].
Proof. intros H. by rewrite DictReader_data_rows, H. Qed.

(** A file has no data row when it is empty or when only blank lines
    follow its header. *)
Lemma data_rows_nil records :
  data_rows records = [] <-> Forall (fun r => r = []) (tail records).
Proof.
  unfold data_rows. generalize (tail records). intros l.
  induction l as [|r l IH]; simpl.
  - split; [constructor|done].
  - rewrite filter_cons. rewrite Forall_cons. case_decide as Hr.
    + split; [done|]. intros [? _]. done.
    + rewrite IH. tauto.
Qed.

(** C8. For a file that exists and has no data row, [convert] writes
    nothing (no output path is touched), prints the skip notice and
    returns, and the loop of [main] goes on with the next entry. *)
Theorem empty_file_skipped
    (csv_name json_name : string) (w : world) (records : list (list string)) :
  files w !! csv_name = Some records ->
  data_rows records = [] ->
  convert csv_name json_name w = (print (SkipEmpty csv_name) w, Ret ()) /\
  written (convert csv_name json_name w).1 = written w /\
  stdout (convert csv_name json_name w).1 = stdout w ++ [SkipEmpty csv_name] /\
  forall items,
    convert_all ((csv_name, json_name) :: items) w =
    convert_all items (print (SkipEmpty csv_name) w).
Proof.
  intros Hf Hd.
  assert (Hc : convert csv_name json_name w
               = (print (SkipEmpty csv_name) w, Ret ())).
  { unfold convert. by rewrite Hf, DictReader_nil. }
  rewrite Hc. split_and!; [done..|].
  intros items. simpl. by rewrite Hf, Hc.
Qed.

(** ** Determinism (claim C9) *)

Lemma run_effect_nil w r : (w, r) = run_effect (Effect [] [] r) w.
Proof. destruct w. unfold run_effect. simpl. by rewrite app_nil_r. Qed.

Lemma convert_run_effect csv_name json_name w :
  convert csv_name json_name w
  = run_effect (convert_effect csv_name json_name (files w !! csv_name)) w.
Proof.
  unfold convert, convert_effect.
  destruct (files w !! csv_name) as [records|]; [|apply run_effect_nil].
  destruct (Csv.DictReader records) as [|row0 rows]; [done|].
  destruct (analyse (row0 :: rows)) as [a|e]; [|apply run_effect_nil].
  destruct (columns a) as [|[k vs] cols]; [|done].
  unfold run_effect, write_json. simpl. by rewrite app_nil_r.
Qed.

Lemma run_effect_files eff w : files (run_effect eff w).1 = files w.
Proof. done. Qed.

Lemma apply_writes_app ws1 ws2 m :
  apply_writes (ws1 ++ ws2) m = apply_writes ws2 (apply_writes ws1 m).
Proof. apply fold_left_app. Qed.

Lemma convert_all_run_effect items w :
  convert_all items w = run_effect (convert_all_effect items (files w)) w.
Proof.
  revert w. induction items as [|[csv_name json_name] items IH]; intros w; simpl.
  - apply run_effect_nil.
  - destruct (files w !! csv_name) as [records|] eqn:Hf.
    + rewrite convert_run_effect, Hf. simpl.
      destruct (convert_effect csv_name json_name (Some records))
        as [ws ps [[]|e]] eqn:He; simpl.
      * unfold run_effect at 1. simpl. rewrite IH. unfold run_effect. simpl.
        by rewrite apply_writes_app, app_assoc.
      * done.
    + rewrite IH. unfold run_effect, print. simpl.
      by rewrite <- app_assoc.
Qed.

Lemma main_run_effect w : main w = run_effect (main_effect (files w)) w.
Proof.
  unfold main, main_effect. generalize FILE_MAP. intros items.
  rewrite convert_all_run_effect.
  change (files (print Banner w)) with (files w).
  destruct (convert_all_effect items (files w)) as [ws ps [[]|e]];
    unfold run_effect, print; simpl; by rewrite <- !app_assoc.
Qed.

Lemma lookup_apply_writes ws m k :
  apply_writes ws m !! k = from_option Some (m !! k) (last_write ws k).
Proof.
  revert m. induction ws as [|[k' d] ws IH]; intros m; simpl; [done|].
  fold (apply_writes ws (<[k':=d]> m)). rewrite IH.
  destruct (last_write ws k); simpl; [done|].
  destruct (decide (k' = k)) as [->|]; simpl.
  - by rewrite lookup_insert_eq.
  - by rewrite lookup_insert_ne.
Qed.

(** Writing the same documents a second time changes nothing. *)
Lemma apply_writes_twice ws m :
  apply_writes ws (apply_writes ws m) = apply_writes ws m.
Proof.
  apply map_eq. intros k. rewrite !lookup_apply_writes.
  by destruct (last_write ws k).
Qed.

(** C9. What [convert] writes for a pair, prints and returns is a
    function of the content of the input file: in two worlds in which
    that file holds the same, the same effect describes both runs.  A
    second run of [main] over the same input files leaves every output
    file as the first run left it, and ends as the first did. *)
Theorem conversion_deterministic :
  (forall csv_name json_name w1 w2,
     files w1 !! csv_name = files w2 !! csv_name ->
     exists eff,
       convert csv_name json_name w1 = run_effect eff w1 /\
       convert csv_name json_name w2 = run_effect eff w2) /\
  (forall w,
     let w' := (main w).1 in
     files w' = files w /\
     written (main w').1 = written w' /\
     (main w').2 = (main w).2).
Proof.
  split.
  - intros csv_name json_name w1 w2 Hf.
    exists (convert_effect csv_name json_name (files w1 !! csv_name)).
    split; [apply convert_run_effect|].
    rewrite Hf. apply convert_run_effect.
  - intros w w'. subst w'. rewrite (main_run_effect w).
    rewrite main_run_effect, run_effect_files.
    generalize (main_effect (files w)). intros eff.
    split_and!; [done| |done].
    unfold run_effect. simpl. apply apply_writes_twice.
Qed.

(** ** Termination of the run (claim C1) *)

(** No output name of [FILE_MAP] is an input name of it. *)
Lemma FILE_MAP_outputs_not_inputs :
  forall p q, p ∈ FILE_MAP -> q ∈ FILE_MAP -> p.2 ≠ q.1.
Proof.
  assert (H : Forall (fun p => Forall (fun q => p.2 ≠ q.1) FILE_MAP) FILE_MAP).
  { apply (bool_decide_unpack _). by vm_compute. }
  intros p q Hp Hq. rewrite Forall_forall in H. specialize (H p Hp).
  rewrite Forall_forall in H. by apply H.
Qed.

(** C1 fails on the code.  The only column of the file is dropped by
    name; [convert] writes the empty document and then raises
    [StopIteration] where it counts the rows of the first column of the
    document.  [main] does not catch it: the run ends there, after the
    banner, with the other thirteen entries not looked at and the closing
    line not printed. *)
Theorem run_aborts_when_every_column_dropped :
  data_rows [["date"]; ["2024-01-01"]] = [["2024-01-01"]] /\
  (main only_date_column).2 = Raise StopIteration /\
  stdout (main only_date_column).1 = [Banner] /\
  written (main only_date_column).1 !! "calc_15min_consumption_2024.json"
    = Some (JObject []).
Proof. split_and!; by vm_compute. Qed.

(** ** When the conversion of a file goes through *)

(** [int] raises nothing but [ValueError]. *)
Lemma int_Raise val e : Py.int val = Raise e -> e = ValueError.
Proof. unfold Py.int. destruct (Py.int_literal _); congruence. Qed.

(** The coercion of a text raises in one case only: the text is a number
    that is infinite, whose conversion to [int] overflows outside the
    reach of the handler. *)
Lemma parse_value_Raise (s : string) e :
  parse_value (CStr s) = Raise e ->
  e = OverflowError /\ exists b, Py.float (Py.strip s) = Ret (S754_infinity b).
Proof.
  unfold parse_value. simpl_result. case_decide; [done|].
  destruct (Py.float (Py.strip s)) as [f|e'] eqn:Hf; simpl_result.
  2:{ apply float_Raise in Hf as ->. done. }
  destruct f as [b|b| |b m ex]; simpl_result; [|intros [= <-]; by eauto|done|].
  all: match goal with |- context [if ?c then _ else _] => destruct c end;
       simpl_result; [|done].
  all: destruct (Py.int (Py.strip s)) as [k|e'] eqn:Hi; simpl_result; [done|].
  all: apply int_Raise in Hi as ->; done.
Qed.

Section DictOfFacts.
Context {K V : Type} `{EqDecision K}.
Implicit Types (d : list (K * V)) (k : K) (v : V).

Lemma elem_of_setitem d k v kv :
  kv ∈ Py.setitem d k v -> kv = (k, v) \/ kv ∈ d.
Proof.
  induction d as [|[k' v'] d IH]; simpl.
  - intros ->%list_elem_of_singleton. by left.
  - destruct (decide (k' = k)) as [->|].
    + intros [->|?]%elem_of_cons; [by left|]. right. apply elem_of_cons. by right.
    + intros [->|Hin]%elem_of_cons.
      * right. apply elem_of_cons. by left.
      * destruct (IH Hin) as [?|?]; [by left|]. right. apply elem_of_cons. by right.
Qed.

Lemma elem_of_fold_setitem {A} (f : A -> K * V) (l : list A) d kv :
  kv ∈ fold_left (fun d a => Py.setitem d (f a).1 (f a).2) l d ->
  kv ∈ d \/ kv ∈ f <$> l.
Proof.
  revert d. induction l as [|a l IH]; intros d; simpl; [by left|].
  intros [Hin|Hin]%IH.
  - apply elem_of_setitem in Hin as [->|?]; [|by left].
    right. rewrite <- surjective_pairing. apply elem_of_cons. by left.
  - right. apply elem_of_cons. by right.
Qed.

Lemma elem_of_keys_fold_setitem {A} (f : A -> K * V) (l : list A) d k :
  k ∈ Py.keys (fold_left (fun d a => Py.setitem d (f a).1 (f a).2) l d) <->
  k ∈ Py.keys d \/ k ∈ (fun a => (f a).1) <$> l.
Proof.
  revert d. induction l as [|a l IH]; intros d; simpl.
  - rewrite elem_of_nil. tauto.
  - rewrite IH, elem_of_keys_setitem, elem_of_cons. tauto.
Qed.
End DictOfFacts.

(** In a rectangular file, the rows have the field names as keys and the
    fields as values. *)
Lemma row_of_rectangular (fieldnames record : list string) col :
  length record = length fieldnames ->
  (col ∈ Py.keys (Csv.row_of fieldnames record) <-> col ∈ Some <$> fieldnames) /\
  (forall c, Py.getitem (Csv.row_of fieldnames record) col = Ret c ->
     exists s, c = CStr s /\ s ∈ record).
Proof.
  intros Hlen. unfold Csv.row_of.
  rewrite decide_False by lia. rewrite decide_False by lia.
  unfold Py.dict_of. split.
  - rewrite (elem_of_keys_fold_setitem (fun kv => kv)).
    unfold Py.keys. simpl. rewrite elem_of_nil.
    change ((fun a : key * cell => a.1) <$> zip (Some <$> fieldnames) (CStr <$> record))
      with ((zip (Some <$> fieldnames) (CStr <$> record)).*1).
    rewrite fst_zip; [tauto|]. rewrite !length_fmap. lia.
  - intros c Hc%getitem_Ret_inv.
    apply (elem_of_fold_setitem (fun kv => kv)) in Hc as [?%elem_of_nil|Hc]; [done|].
    rewrite list_fmap_id in Hc. apply elem_of_zip_r in Hc.
    apply list_elem_of_fmap in Hc as (s & -> & Hs). by exists s.
Qed.

Lemma DictReader_rectangular records r col :
  rectangular records ->
  r ∈ Csv.DictReader records ->
  col ∈ headers_of (Csv.DictReader records) ->
  exists s rec, rec ∈ data_rows records /\ s ∈ rec /\
    Py.getitem r col = Ret (CStr s).
Proof.
  intros Hrect Hr Hcol. rewrite DictReader_data_rows in Hr, Hcol.
  apply list_elem_of_fmap in Hr as (rec & -> & Hrec).
  assert (Hfn : col ∈ Some <$> hd [] records).
  { destruct (data_rows records) as [|rec0 recs] eqn:Hd; simpl in Hcol.
    - by apply elem_of_nil in Hcol.
    - apply row_of_rectangular in Hcol; [done|].
      apply Hrect. rewrite Hd. apply elem_of_cons. by left. }
  destruct (row_of_rectangular (hd [] records) rec col (Hrect _ Hrec)) as [Hk Hv].
  apply Hk in Hfn. apply getitem_Ret in Hfn as [c Hc].
  destruct (Hv c Hc) as (s & -> & Hs). by exists s, rec.
Qed.

Lemma all_zero_Ret col (rows : list row) :
  (forall r, r ∈ rows -> exists s, Py.getitem r col = Ret (CStr s)) ->
  exists b, all_zero col rows = Ret b.
Proof.
  induction rows as [|r rows IH]; intros Hcells; simpl_result; [by eauto|].
  destruct (Hcells r) as [s Hs]; [apply elem_of_cons; by left|].
  rewrite Hs. simpl_result.
  assert (IH' : exists b, all_zero col rows = Ret b).
  { apply IH. intros r' Hr'. apply Hcells. apply elem_of_cons. by right. }
  case_decide; [done|].
  destruct (Py.float (Py.strip s)) as [f|e] eqn:Hf; simpl_result.
  - destruct (Py.float_ne_zero f); [by eauto|done].
  - apply float_Raise in Hf as ->. simpl. by eauto.
Qed.

Lemma find_zero_cols_Ret (hs : list key) (rows : list row) :
  (forall col r, col ∈ hs -> r ∈ rows ->
     exists s, Py.getitem r col = Ret (CStr s)) ->
  exists zc, find_zero_cols hs rows = Ret zc.
Proof.
  unfold find_zero_cols. generalize (∅ : gset key).
  induction hs as [|h hs IH]; intros acc Hcells; simpl_result; [by eauto|].
  assert (IH' : forall acc', exists zc, Py.for_each hs
    (fun col (zero_cols : gset key) =>
       if is_time_col col then Ret ({[col]} ∪ zero_cols)
       else if decide (col = Some "timestamps") then Ret zero_cols
       else
         match all_zero col rows with
         | Ret a => if a then Ret ({[col]} ∪ zero_cols) else Ret zero_cols
         | Raise e => Raise e
         end) acc' = Ret zc).
  { intros acc'. apply IH. intros col r Hcol Hr. apply Hcells; [|done].
    apply elem_of_cons. by right. }
  destruct (is_time_col h); [done|]. case_decide; [done|].
  destruct (all_zero_Ret h rows) as [b ->].
  { intros r Hr. apply Hcells; [|done]. apply elem_of_cons. by left. }
  by destruct b.
Qed.

Lemma append_to_Ret (cols : columns_t) col v :
  col ∈ Py.keys cols -> exists cols', append_to cols col v = Ret cols'.
Proof.
  unfold Py.keys. induction cols as [|[k vs] cols IH]; simpl_result.
  - by intros ?%elem_of_nil.
  - intros Hin. destruct (decide (k = col)); [by eauto|].
    destruct IH as [cols' ->]; [|by eauto].
    apply elem_of_cons in Hin as [?|?]; [congruence|done].
Qed.

Lemma build_row_Ret (keep : list key) (r : row) (cols : columns_t) :
  (forall col, col ∈ keep -> col ∈ Py.keys cols) ->
  (forall col, col ∈ keep ->
     exists s v, Py.getitem r col = Ret (CStr s) /\ parse_value (CStr s) = Ret v) ->
  exists cols',
    Py.for_each keep
      (fun col (columns : columns_t) =>
         vs ← Py.getitem columns col;
         c ← Py.getitem r col;
         v ← parse_value c;
         append_to columns col v)
      cols = Ret cols' /\
    Py.keys cols' = Py.keys cols.
Proof.
  revert cols. induction keep as [|k keep IH]; intros cols Hkeys Hcells; simpl_result.
  - by eauto.
  - destruct (getitem_Ret cols k) as [vs0 ->]; [apply Hkeys, elem_of_cons; by left|].
    destruct (Hcells k) as (s & v & -> & Hv); [apply elem_of_cons; by left|].
    simpl_result. rewrite Hv. simpl_result.
    destruct (append_to_Ret cols k v) as [cols1 Ha];
      [apply Hkeys, elem_of_cons; by left|].
    rewrite Ha. simpl_result.
    apply append_to_spec in Ha as (Hk1 & _ & _).
    destruct (IH cols1) as (cols' & -> & Hk').
    + intros col Hcol. rewrite Hk1. apply Hkeys, elem_of_cons. by right.
    + intros col Hcol. apply Hcells, elem_of_cons. by right.
    + exists cols'. split; [done|]. congruence.
Qed.

Lemma build_columns_Ret (keep : list key) (rows : list row) :
  (forall col r, col ∈ keep -> r ∈ rows ->
     exists s v, Py.getitem r col = Ret (CStr s) /\ parse_value (CStr s) = Ret v) ->
  exists cols, build_columns keep rows = Ret cols.
Proof.
  unfold build_columns.
  assert (Hgen : forall cols0 : columns_t,
    (forall col r, col ∈ keep -> r ∈ rows ->
       exists s v, Py.getitem r col = Ret (CStr s) /\ parse_value (CStr s) = Ret v) ->
    Py.keys cols0 = keep ->
    exists cols, Py.for_each rows
      (fun r (columns : columns_t) =>
         Py.for_each keep
           (fun col (columns : columns_t) =>
              vs ← Py.getitem columns col;
              c ← Py.getitem r col;
              v ← parse_value c;
              append_to columns col v)
           columns)
      cols0 = Ret cols).
  { induction rows as [|r rows IH]; intros cols0 Hcells Hk; simpl_result; [by eauto|].
    destruct (build_row_Ret keep r cols0) as (cols1 & Hrow & Hk1).
    - intros col Hcol. by rewrite Hk.
    - intros col Hcol. apply Hcells; [done|]. apply elem_of_cons. by left.
    - simpl_result. rewrite Hrow. apply IH; [|congruence].
      intros col r' Hcol Hr'. apply Hcells; [done|]. apply elem_of_cons. by right. }
  intros Hcells. apply Hgen; [done|]. apply keys_fresh_columns.
Qed.

(** The analysis of a rectangular file without infinite cells raises
    nothing. *)
Lemma analyse_Ret (records : list (list string)) :
  rectangular records -> finite_cells records ->
  exists a, analyse (Csv.DictReader records) = Ret a.
Proof.
  intros Hrect Hfin. unfold analyse. simpl_result.
  destruct (find_zero_cols_Ret (headers_of (Csv.DictReader records))
              (Csv.DictReader records)) as [zc ->].
  { intros col r Hcol Hr.
    destruct (DictReader_rectangular _ _ _ Hrect Hr Hcol) as (s & _ & _ & _ & ?).
    by exists s. }
  destruct (build_columns_Ret
              (filter (fun c => c ∉ zc) (headers_of (Csv.DictReader records)))
              (Csv.DictReader records)) as [cols ->]; [|by eauto].
  intros col r [_ Hcol]%list_elem_of_filter Hr.
  destruct (DictReader_rectangular _ _ _ Hrect Hr Hcol) as (s & rec & Hrec & Hs & Hg).
  exists s. destruct (parse_value (CStr s)) as [v|e] eqn:Hv; [by eauto|].
  apply parse_value_Raise in Hv as [_ [b Hb]]. by destruct (Hfin rec s b).
Qed.

Lemma convert_effect_convertible csv_name json_name records :
  convertible records ->
  exists ws ev,
    convert_effect csv_name json_name (Some records) = Effect ws [ev] (Ret ()).
Proof.
  intros (Hrect & Hfin & Hkeep). unfold convert_effect.
  destruct (Csv.DictReader records) as [|row0 rows] eqn:Hrows; [by eauto|].
  destruct Hkeep as [Hd|(col & Hcol & Hnot)].
  { apply DictReader_nil in Hd. congruence. }
  destruct (analyse_Ret records Hrect Hfin) as [a Ha]. rewrite Hrows in Ha.
  rewrite Ha.
  assert (Hin : col ∈ Py.keys (columns a)).
  { apply (elem_of_keys_columns records); [by rewrite Hrows|].
    destruct (analyse_inv _ _ Ha) as (-> & Hzc & _ & _). split; [done|].
    rewrite (find_zero_cols_spec _ _ _ Hzc). tauto. }
  destruct (columns a) as [|[k vs] cols]; [by apply elem_of_nil in Hin|].
  by eauto.
Qed.

Lemma convert_all_effect_Ret items (dir : gmap string (list (list string))) :
  (forall p records, p ∈ items -> dir !! p.1 = Some records ->
     convertible records) ->
  outcome (convert_all_effect items dir) = Ret () /\
  length (prints (convert_all_effect items dir)) = length items.
Proof.
  induction items as [|[csv_name json_name] items IH]; intros Hok; simpl; [done|].
  destruct IH as [IHo IHp].
  { intros p records Hp. apply Hok. apply elem_of_cons. by right. }
  destruct (dir !! csv_name) as [records|] eqn:Hf; simpl.
  - destruct (convert_effect_convertible csv_name json_name records)
      as (ws & ev & ->); simpl.
    + apply (Hok (csv_name, json_name)); [apply elem_of_cons; by left|done].
    + by rewrite IHp.
  - by rewrite IHp.
Qed.

(** The run over a directory in which every configured file is missing
    or convertible processes every entry and ends normally: between the
    banner and the closing line it prints one line per entry. *)
Lemma main_completes (w : world) :
  (forall p records, p ∈ FILE_MAP -> files w !! p.1 = Some records ->
     convertible records) ->
  (main w).2 = Ret () /\
  exists lines,
    stdout (main w).1 = stdout w ++ Banner :: lines ++ [Done] /\
    length lines = length FILE_MAP.
Proof.
  rewrite main_run_effect. unfold main_effect.
  generalize FILE_MAP. intros items Hok.
  destruct (convert_all_effect_Ret items (files w) Hok) as [Ho Hp].
  rewrite Ho. simpl. split; [done|].
  by exists (prints (convert_all_effect items (files w))).
Qed.

(** Other ways in which the conversion of an existing file ends the
    run: a cell that is an infinite number, and a record shorter than the
    header. *)
Example infinite_cell_aborts :
  (main (World {[ "calculation.csv" := [["a"]; ["inf"]] ]} ∅ [])).2
  = Raise OverflowError.
Proof. by vm_compute. Qed.

Example short_record_aborts :
  (main (World {[ "calculation.csv" := [["a"; "b"]; ["1"]] ]} ∅ [])).2
  = Raise AttributeError.
Proof. by vm_compute. Qed.

(** ** The theorems at work on sample files *)

Lemma drop_set_iff_all_zero_witness :
  Some "a" ∈ headers_of (Csv.DictReader sample_records) /\
  (Some "a" ∉ named_cols) /\
  exists zc,
    find_zero_cols (headers_of (Csv.DictReader sample_records))
      (Csv.DictReader sample_records) = Ret zc /\
    Some "a" ∈ zc.
Proof.
  assert (Hin : Some "a" ∈ headers_of (Csv.DictReader sample_records))
    by decide_by_computation.
  assert (Hn : Some "a" ∉ named_cols) by decide_by_computation.
  split_and!; [done..|].
  eexists. split; [vm_compute; reflexivity|].
  apply (proj1 (drop_set_iff_all_zero sample_records (Some "a") Hin Hn) _ eq_refl).
  intros r s Hr Hg Hs. apply list_elem_of_In in Hr. vm_compute in Hr.
  destruct Hr as [<-|[<-|[<-|[]]]]; vm_compute in Hg; injection Hg as <-.
  - exists (S754_zero false). by vm_compute.
  - by vm_compute in Hs.
  - exists (S754_zero false). by vm_compute.
Defined.

Lemma time_columns_dropped_timestamps_kept_witness :
  exists a,
    analyse (Csv.DictReader sample_time_records) = Ret a /\
    (Some "date" ∉ Py.keys (columns a)) /\
    (Some "month" ∉ Py.keys (columns a)) /\
    Some "date" ∈ zero_cols a /\
    (Some "timestamps" ∉ zero_cols a) /\
    Some "timestamps" ∈ Py.keys (columns a).
Proof.
  eexists. split; [vm_compute; reflexivity|].
  match goal with |- context [columns ?x] => set (a := x) end.
  assert (Ha : analyse (Csv.DictReader sample_time_records) = Ret a)
    by (by vm_compute).
  destruct (time_columns_dropped_timestamps_kept sample_time_records a Ha)
    as [Htime Hts].
  assert (Hd : Some "date" ∈ headers_of (Csv.DictReader sample_time_records))
    by decide_by_computation.
  assert (Ht : Some "timestamps" ∈ headers_of (Csv.DictReader sample_time_records))
    by decide_by_computation.
  split_and!.
  - apply (Htime (Some "date")). by left.
  - apply (Htime (Some "month")). by right.
  - apply (Htime (Some "date")); [by left|done].
  - by apply Hts.
  - by apply Hts.
Defined.

Lemma blank_column_dropped_witness :
  Some "idle" ∈ headers_of (Csv.DictReader sample_time_records) /\
  (Some "idle" ∉ named_cols) /\
  is_blank "" = true /\ is_blank "  " = true /\
  all_zero (Some "idle") (Csv.DictReader sample_time_records) = Ret true /\
  exists a,
    analyse (Csv.DictReader sample_time_records) = Ret a /\
    Some "idle" ∈ zero_cols a /\
    (Some "idle" ∉ Py.keys (columns a)).
Proof.
  assert (Hin : Some "idle" ∈ headers_of (Csv.DictReader sample_time_records))
    by decide_by_computation.
  assert (Hn : Some "idle" ∉ named_cols) by decide_by_computation.
  assert (Hblank : forall r, r ∈ Csv.DictReader sample_time_records ->
    exists s, Py.getitem r (Some "idle") = Ret (CStr s) /\ is_blank s = true).
  { intros r Hr. apply list_elem_of_In in Hr. vm_compute in Hr.
    destruct Hr as [<-|[<-|[]]].
    - exists "". by vm_compute.
    - exists "  ". by vm_compute. }
  destruct (blank_column_dropped sample_time_records (Some "idle") Hin Hn Hblank)
    as (Hz & _ & Ha).
  split_and!; [done|done|by vm_compute|by vm_compute|done|].
  eexists. split; [vm_compute; reflexivity|]. by apply Ha.
Defined.

Lemma columns_follow_rows_witness :
  exists a,
    analyse (Csv.DictReader sample_records) = Ret a /\
    (Some "b", [VInt 1; VStr "x"; VInt 3]) ∈ columns a /\
    length [VInt 1; VStr "x"; VInt 3] = length (data_rows sample_records) /\
    exists r c,
      Csv.DictReader sample_records !! 1%nat = Some r /\
      Py.getitem r (Some "b") = Ret c /\
      parse_value c = Ret (VStr "x").
Proof.
  eexists. split; [vm_compute; reflexivity|].
  match goal with |- context [columns ?x] => set (a := x) end.
  assert (Ha : analyse (Csv.DictReader sample_records) = Ret a) by (by vm_compute).
  assert (Hin : (Some "b", [VInt 1; VStr "x"; VInt 3]) ∈ columns a)
    by decide_by_computation.
  destruct (columns_follow_rows sample_records a _ _ Ha Hin) as [Hlen Hrows].
  split_and!; [done..|].
  destruct (Csv.DictReader sample_records !! 1%nat) as [r|] eqn:Hr;
    [|by vm_compute in Hr].
  destruct (Hrows 1%nat r Hr) as (c & v & Hc & Hv & Hvs).
  exists r, c. split_and!; [done..|].
  vm_compute in Hvs. by injection Hvs as <-.
Defined.

Lemma blank_cell_is_null_witness :
  is_blank "" = true /\
  parse_value (CStr "") = Ret VNone /\
  exists a,
    analyse (Csv.DictReader sample_records) = Ret a /\
    exists items,
      (json_of_key (Some "c"), JArray items)
        ∈ json_members (json_of_columns (columns a)) /\
      items !! 1%nat = Some JNull.
Proof.
  assert (Hb : is_blank "" = true) by (by vm_compute).
  destruct (blank_cell_is_null "" Hb) as (Hp & _ & Hpos).
  split_and!; [done..|].
  eexists. split; [vm_compute; reflexivity|].
  match goal with |- context [columns ?x] => set (a := x) end.
  assert (Ha : analyse (Csv.DictReader sample_records) = Ret a) by (by vm_compute).
  pose (r := Csv.row_of ["timestamps"; "a"; "b"; "c"] ["1"; " "; "x"; ""]).
  assert (Hr : Csv.DictReader sample_records !! 1%nat = Some r) by (by vm_compute).
  assert (Hg : Py.getitem r (Some "c") = Ret (CStr "")) by (by vm_compute).
  assert (Hin : (Some "c",
                 [VInt 5; VNone;
                  VFloat (Py.round2 (Py.float_of_decimal false 725 (-2)))])
                ∈ columns a) by decide_by_computation.
  exact (Hpos sample_records a _ _ 1%nat r Ha Hin Hr Hg).
Defined.

Lemma unparseable_cell_kept_stripped_witness :
  is_blank " abc " = false /\
  Py.float (Py.strip " abc ") = Raise ValueError /\
  Py.strip " abc " = "abc" /\
  parse_value (CStr " abc ") = Ret (VStr "abc").
Proof.
  assert (Hb : is_blank " abc " = false) by (by vm_compute).
  assert (Hf : Py.float (Py.strip " abc ") = Raise ValueError) by (by vm_compute).
  destruct (unparseable_cell_kept_stripped " abc " Hb Hf) as [Hp _].
  split_and!; [done|done|by vm_compute|exact Hp].
Defined.

Lemma empty_file_skipped_witness :
  files header_only !! "calculation.csv" = Some [["timestamps"; "a"]; []; []] /\
  data_rows [["timestamps"; "a"]; []; []] = [] /\
  convert "calculation.csv" "calc_15min_consumption_2024.json" header_only
    = (print (SkipEmpty "calculation.csv") header_only, Ret ()) /\
  written
    (convert "calculation.csv" "calc_15min_consumption_2024.json" header_only).1
    = written header_only /\
  convert_all [("calculation.csv", "calc_15min_consumption_2024.json")] header_only
    = convert_all [] (print (SkipEmpty "calculation.csv") header_only).
Proof.
  assert (Hf : files header_only !! "calculation.csv"
               = Some [["timestamps"; "a"]; []; []]) by (by vm_compute).
  assert (Hd : data_rows [["timestamps"; "a"]; []; []] = []) by (by vm_compute).
  destruct (empty_file_skipped "calculation.csv"
              "calc_15min_consumption_2024.json" header_only _ Hf Hd)
    as (Hc & Hw & _ & Hall).
  split_and!; [done..|apply Hall].
Defined.

(** * Further properties of the script *)

(** ** [parse_value] *)

Lemma float_empty : Py.float "" = Raise ValueError.
Proof. by vm_compute. Qed.

(** The conversion of an infinite number to [int] raises past the
    handler. *)
Lemma parse_value_infinity (s : string) (b : bool) :
  Py.float (Py.strip s) = Ret (S754_infinity b) ->
  parse_value (CStr s) = Raise OverflowError.
Proof.
  intros Hb. unfold parse_value. simpl_result.
  rewrite decide_False.
  - by rewrite Hb.
  - intros Hs. rewrite Hs, float_empty in Hb. done.
Qed.

(** X1. The coercion of a text raises in one case only, and always in
    that case: the stripped text is an infinite number.  The exception is
    the [OverflowError] of [int(f)], which [except ValueError] lets
    through. *)
Theorem parse_value_raises_iff (s : string) (e : exn) :
  parse_value (CStr s) = Raise e <->
  e = OverflowError /\
  exists b, Py.float (Py.strip s) = Ret (S754_infinity b).
Proof.
  split; [apply parse_value_Raise|].
  intros [-> [b Hb]]. by apply (parse_value_infinity s b).
Qed.

Section StripFacts.
Variable sp : ascii -> bool.

Lemma rstrip_by_idem s : Py.rstrip_by sp (Py.rstrip_by sp s) = Py.rstrip_by sp s.
Proof.
  induction s as [|c s IH]; simpl; [done|].
  destruct (Py.rstrip_by sp s) as [|c' t] eqn:Hr.
  - destruct (sp c) eqn:Hc; simpl; [done|]. by rewrite Hc.
  - simpl. simpl in IH. by rewrite IH.
Qed.

(** Stripping on the right keeps a first character that is no space. *)
Lemma lstrip_by_rstrip_by s :
  Py.lstrip_by sp (Py.rstrip_by sp (Py.lstrip_by sp s))
  = Py.rstrip_by sp (Py.lstrip_by sp s).
Proof.
  induction s as [|c s IH]; simpl; [done|].
  destruct (sp c) eqn:Hc; [done|]. simpl.
  destruct (Py.rstrip_by sp s) as [|c' t]; rewrite ?Hc; simpl; by rewrite Hc.
Qed.
End StripFacts.

Lemma strip_idem s : Py.strip (Py.strip s) = Py.strip s.
Proof.
  unfold Py.strip. rewrite lstrip_by_rstrip_by. apply rstrip_by_idem.
Qed.

(** X2. Whitespace around a cell's text never changes what the text is
    coerced to. *)
Theorem parse_value_ignores_surrounding_whitespace (s : string) :
  parse_value (CStr (Py.strip s)) = parse_value (CStr s).
Proof. unfold parse_value. simpl_result. by rewrite strip_idem. Qed.

(** ** The keys of the rows *)

Section DictGetSet.
Context {K V : Type} `{EqDecision K}.

Lemma getitem_setitem (d : list (K * V)) k v :
  Py.getitem (Py.setitem d k v) k = Ret v.
Proof.
  induction d as [|[k' v'] d IH]; simpl.
  - by rewrite decide_True.
  - destruct (decide (k' = k)) as [->|Hk]; simpl.
    + by rewrite decide_True.
    + by rewrite decide_False.
Qed.
End DictGetSet.

Lemma fst_zip_take {A B} (l : list A) (k : list B) :
  (zip l k).*1 = take (length k) l.
Proof.
  rewrite <- (zip_with_take_l _ l k).
  apply fst_zip. rewrite length_take. lia.
Qed.

Lemma elem_of_keys_dict_of_zip (ks : list key) (vs : list cell) (col : key) :
  col ∈ Py.keys (Py.dict_of (zip ks vs)) <-> col ∈ take (length vs) ks.
Proof.
  unfold Py.dict_of.
  etransitivity; [apply (elem_of_keys_fold_setitem (fun kv => kv))|].
  rewrite <- fst_zip_take. split.
  - intros [[]%elem_of_nil|?]. done.
  - intros ?. by right.
Qed.

(** The keys of a row are the field names and, when the record has more
    fields than the header, [None]. *)
Lemma elem_of_keys_row_of (fieldnames record : list string) (col : key) :
  col ∈ Py.keys (Csv.row_of fieldnames record) <->
  (exists k, col = Some k /\ k ∈ fieldnames) \/
  (col = None /\ (length fieldnames < length record)%nat).
Proof.
  assert (Hsome : forall l : list string,
            col ∈ Some <$> l <-> exists k, col = Some k /\ k ∈ l).
  { intros l. rewrite list_elem_of_fmap. done. }
  unfold Csv.row_of. case_decide as Hlt; [|case_decide as Hgt].
  - rewrite elem_of_keys_setitem, elem_of_keys_dict_of_zip.
    rewrite length_fmap, take_ge by (rewrite length_fmap; lia).
    rewrite Hsome.
    split; [intros [->|?]; [right|left]; done|].
    intros [?|[-> _]]; [by right|by left].
  - etransitivity;
      [apply (elem_of_keys_fold_setitem (fun k : string => (Some k, CNone)))|].
    rewrite elem_of_keys_dict_of_zip, length_fmap, <- fmap_take.
    change ((fun a : string => (Some a, CNone).1) <$> drop (length record) fieldnames)
      with (Some <$> drop (length record) fieldnames).
    rewrite <- elem_of_app, <- fmap_app, take_drop, Hsome.
    split; [by left|]. intros [?|[_ ?]]; [done|lia].
  - rewrite elem_of_keys_dict_of_zip.
    rewrite length_fmap, take_ge by (rewrite length_fmap; lia).
    rewrite Hsome.
    split; [by left|]. intros [?|[_ ?]]; [done|lia].
Qed.

Lemma getitem_row_of_None (fieldnames record : list string) :
  None ∈ Py.keys (Csv.row_of fieldnames record) ->
  Py.getitem (Csv.row_of fieldnames record) None
  = Ret (CList (drop (length fieldnames) record)).
Proof.
  rewrite elem_of_keys_row_of. intros [(k & ? & _)|[_ Hlt]]; [done|].
  unfold Csv.row_of. rewrite decide_True by done. apply getitem_setitem.
Qed.

(** Every row of a file has the named keys of the first row. *)
Lemma DictReader_keys records r k :
  r ∈ Csv.DictReader records ->
  Some k ∈ headers_of (Csv.DictReader records) ->
  Some k ∈ Py.keys r.
Proof.
  rewrite DictReader_data_rows.
  intros (rec & -> & _)%list_elem_of_fmap Hk.
  destruct (data_rows records) as [|rec0 recs]; simpl in Hk.
  - by apply elem_of_nil in Hk.
  - apply elem_of_keys_row_of in Hk as [(k' & [= <-] & Hk)|[? _]]; [|done].
    apply elem_of_keys_row_of. left. by exists k.
Qed.

(** ** The exceptions of the analysis *)

(** The scan of a column that is a key of every row raises nothing but
    the [AttributeError] of a cell that is no text. *)
Lemma all_zero_Raise col (rows : list row) e :
  (forall r, r ∈ rows -> col ∈ Py.keys r) ->
  all_zero col rows = Raise e -> e = AttributeError.
Proof.
  induction rows as [|r rows IH]; intros Hkeys; simpl_result; [done|].
  destruct (getitem_Ret r col) as [c ->]; [apply Hkeys, elem_of_cons; by left|].
  simpl_result.
  assert (IH' : all_zero col rows = Raise e -> e = AttributeError).
  { apply IH. intros r' Hr'. apply Hkeys, elem_of_cons. by right. }
  destruct c as [s| |l]; simpl_result; [|by intros [= <-]..].
  case_decide; [done|].
  destruct (Py.float (Py.strip s)) as [f|e'] eqn:Hf; simpl_result.
  - by destruct (Py.float_ne_zero f).
  - apply float_Raise in Hf as ->. done.
Qed.

(** The scan of the surplus fields stops at the first row: a list has no
    [strip]. *)
Lemma all_zero_restkey records :
  None ∈ headers_of (Csv.DictReader records) ->
  all_zero None (Csv.DictReader records) = Raise AttributeError.
Proof.
  rewrite DictReader_data_rows. intros Hin.
  destruct (data_rows records) as [|rec0 recs]; simpl in Hin.
  - by apply elem_of_nil in Hin.
  - rewrite fmap_cons. simpl. by rewrite (getitem_row_of_None _ _ Hin).
Qed.

Lemma all_zero_Raise_DictReader records col e :
  col ∈ headers_of (Csv.DictReader records) ->
  all_zero col (Csv.DictReader records) = Raise e -> e = AttributeError.
Proof.
  intros Hcol. destruct col as [k|].
  - apply all_zero_Raise. intros r Hr. by apply (DictReader_keys records).
  - rewrite (all_zero_restkey records Hcol). by intros [= <-].
Qed.

Lemma find_zero_cols_Raise (hs : list key) (rows : list row) e :
  (forall col e', col ∈ hs -> all_zero col rows = Raise e' -> e' = AttributeError) ->
  find_zero_cols hs rows = Raise e -> e = AttributeError.
Proof.
  unfold find_zero_cols. generalize (∅ : gset key).
  induction hs as [|h hs IH]; intros acc Hscan; simpl_result; [done|].
  assert (IH' : forall acc', Py.for_each hs
    (fun col (zero_cols : gset key) =>
       if is_time_col col then Ret ({[col]} ∪ zero_cols)
       else if decide (col = Some "timestamps") then Ret zero_cols
       else
         match all_zero col rows with
         | Ret a => if a then Ret ({[col]} ∪ zero_cols) else Ret zero_cols
         | Raise e => Raise e
         end) acc' = Raise e -> e = AttributeError).
  { intros acc'. apply IH. intros col e' Hcol. apply Hscan, elem_of_cons. by right. }
  destruct (is_time_col h); [by apply IH'|]. case_decide; [by apply IH'|].
  destruct (all_zero h rows) as [[]|e'] eqn:Hz; [by apply IH'..|].
  intros [= <-]. apply (Hscan h); [apply elem_of_cons; by left|done].
Qed.

(** A column the loop over the headers went past is a named key of the
    rows: not the key [None] of surplus fields. *)
Lemma find_zero_cols_named records zc col :
  find_zero_cols (headers_of (Csv.DictReader records)) (Csv.DictReader records)
  = Ret zc ->
  col ∈ headers_of (Csv.DictReader records) ->
  exists k, col = Some k.
Proof.
  intros Hzc Hcol. destruct col as [k|]; [by eauto|].
  destruct (find_zero_cols_scanned _ _ _ _ Hzc Hcol) as [b Hb].
  { unfold named_cols. rewrite !not_elem_of_cons. split_and!; try done.
    apply not_elem_of_nil. }
  rewrite (all_zero_restkey records Hcol) in Hb. done.
Qed.

Lemma build_row_keys (keep : list key) (r : row) (cols cols' : columns_t) :
  Py.for_each keep
    (fun col (columns : columns_t) =>
       vs ← Py.getitem columns col;
       c ← Py.getitem r col;
       v ← parse_value c;
       append_to columns col v)
    cols = Ret cols' ->
  Py.keys cols' = Py.keys cols.
Proof.
  revert cols. induction keep as [|k keep IH]; intros cols; simpl_result.
  - by intros [= <-].
  - destruct (Py.getitem cols k) as [vs0|]; simpl_result; [|done].
    destruct (Py.getitem r k) as [c|]; simpl_result; [|done].
    destruct (parse_value c) as [v|]; simpl_result; [|done].
    destruct (append_to cols k v) as [cols1|] eqn:Ha; simpl_result; [|done].
    intros Hrest. apply append_to_spec in Ha as (Hk1 & _ & _).
    rewrite (IH _ Hrest). done.
Qed.

Lemma parse_value_Raise_cell (c : cell) e :
  parse_value c = Raise e -> e = AttributeError \/ e = OverflowError.
Proof.
  destruct c as [s| |l]; [|intros [= <-]; by left..].
  intros [-> _]%parse_value_Raise. by right.
Qed.

Lemma build_row_Raise (keep : list key) (r : row) (cols : columns_t) e :
  (forall col, col ∈ keep -> col ∈ Py.keys cols) ->
  (forall col, col ∈ keep -> col ∈ Py.keys r) ->
  Py.for_each keep
    (fun col (columns : columns_t) =>
       vs ← Py.getitem columns col;
       c ← Py.getitem r col;
       v ← parse_value c;
       append_to columns col v)
    cols = Raise e ->
  e = AttributeError \/ e = OverflowError.
Proof.
  revert cols. induction keep as [|k keep IH]; intros cols Hcols Hrow; simpl_result.
  - done.
  - destruct (getitem_Ret cols k) as [vs0 ->]; [apply Hcols, elem_of_cons; by left|].
    destruct (getitem_Ret r k) as [c ->]; [apply Hrow, elem_of_cons; by left|].
    simpl_result.
    destruct (parse_value c) as [v|e'] eqn:Hv; simpl_result.
    2:{ intros [= <-]. by apply (parse_value_Raise_cell c). }
    destruct (append_to_Ret cols k v) as [cols1 Ha];
      [apply Hcols, elem_of_cons; by left|].
    rewrite Ha. simpl_result. apply append_to_spec in Ha as (Hk1 & _ & _).
    apply IH.
    + intros col Hcol. rewrite Hk1. apply Hcols, elem_of_cons. by right.
    + intros col Hcol. apply Hrow, elem_of_cons. by right.
Qed.

Lemma build_columns_Raise (keep : list key) (rows : list row) e :
  (forall col r, col ∈ keep -> r ∈ rows -> col ∈ Py.keys r) ->
  build_columns keep rows = Raise e ->
  e = AttributeError \/ e = OverflowError.
Proof.
  unfold build_columns. intros Hkeys.
  assert (Hgen : forall cols0 : columns_t,
    (forall col r, col ∈ keep -> r ∈ rows -> col ∈ Py.keys r) ->
    Py.keys cols0 = keep ->
    Py.for_each rows
      (fun r (columns : columns_t) =>
         Py.for_each keep
           (fun col (columns : columns_t) =>
              vs ← Py.getitem columns col;
              c ← Py.getitem r col;
              v ← parse_value c;
              append_to columns col v)
           columns)
      cols0 = Raise e ->
    e = AttributeError \/ e = OverflowError).
  { clear Hkeys. induction rows as [|r rows IH]; intros cols0 Hkeys Hk; simpl_result; [done|].
    match goal with |- context [Py.for_each keep ?f cols0] =>
      destruct (Py.for_each keep f cols0) as [cols1|e'] eqn:Hrow end; simpl_result.
    - apply IH.
      + intros col r' Hcol Hr'. apply Hkeys; [done|]. apply elem_of_cons. by right.
      + apply build_row_keys in Hrow. congruence.
    - intros [= <-]. apply build_row_Raise in Hrow; [done| |].
      + intros col Hcol. by rewrite Hk.
      + intros col Hcol. apply Hkeys; [done|]. apply elem_of_cons. by left. }
  apply Hgen; [done|]. apply keys_fresh_columns.
Qed.

(** The analysis of a file raises nothing but [AttributeError] (a cell
    that is no text) and [OverflowError] (a cell that is an infinite
    number): no key is ever missing. *)
Lemma analyse_Raise records e :
  analyse (Csv.DictReader records) = Raise e ->
  e = AttributeError \/ e = OverflowError.
Proof.
  unfold analyse. simpl_result.
  destruct (find_zero_cols (headers_of (Csv.DictReader records))
              (Csv.DictReader records)) as [zc|e1] eqn:Hzc; simpl_result.
  - match goal with |- context [build_columns ?k ?r] =>
      destruct (build_columns k r) as [cols|e2] eqn:Hb end; simpl_result; [done|].
    intros [= <-]. apply build_columns_Raise in Hb; [done|].
    intros col r [_ Hcol]%list_elem_of_filter Hr.
    destruct (find_zero_cols_named _ _ _ Hzc Hcol) as [k ->].
    by apply (DictReader_keys records).
  - intros [= <-]. left. apply find_zero_cols_Raise in Hzc; [done|].
    intros col e' Hcol. by apply all_zero_Raise_DictReader.
Qed.

Lemma find_zero_cols_Ret_scans (hs : list key) (rows : list row) :
  (forall col, col ∈ hs -> is_time_col col = false -> col ≠ Some "timestamps" ->
     exists b, all_zero col rows = Ret b) ->
  exists zc, find_zero_cols hs rows = Ret zc.
Proof.
  unfold find_zero_cols. generalize (∅ : gset key).
  induction hs as [|h hs IH]; intros acc Hscan; simpl_result; [by eauto|].
  assert (IH' : forall acc', exists zc, Py.for_each hs
    (fun col (zero_cols : gset key) =>
       if is_time_col col then Ret ({[col]} ∪ zero_cols)
       else if decide (col = Some "timestamps") then Ret zero_cols
       else
         match all_zero col rows with
         | Ret a => if a then Ret ({[col]} ∪ zero_cols) else Ret zero_cols
         | Raise e => Raise e
         end) acc' = Ret zc).
  { intros acc'. apply IH. intros col Hcol. apply Hscan, elem_of_cons. by right. }
  destruct (is_time_col h) eqn:Ht; [done|]. case_decide as Hts; [done|].
  destruct (Hscan h) as [b ->]; [apply elem_of_cons; by left|done..|].
  by destruct b.
Qed.

Lemma build_columns_nil (rows : list row) : build_columns [] rows = Ret [].
Proof.
  unfold build_columns. simpl. induction rows as [|r rows IH]; simpl_result; done.
Qed.

(** The document is empty exactly when every header is in the drop
    set. *)
Lemma columns_nil_iff records a :
  analyse (Csv.DictReader records) = Ret a ->
  columns a = [] <->
  forall col, col ∈ headers_of (Csv.DictReader records) ->
    dropped_col (Csv.DictReader records) col.
Proof.
  intros Ha. destruct (analyse_inv _ _ Ha) as (Hh & Hzc & _ & _).
  pose proof (find_zero_cols_spec _ _ _ Hzc) as Hspec.
  split.
  - intros Hnil col Hcol. destruct (decide (col ∈ zero_cols a)) as [Hin|Hout].
    + by apply Hspec in Hin as [_ ?].
    + assert (Hk : col ∈ Py.keys (columns a)).
      { apply (elem_of_keys_columns records); [done|]. by rewrite Hh. }
      rewrite Hnil in Hk. by apply elem_of_nil in Hk.
  - intros Hall. destruct (columns a) as [|[k vs] cols] eqn:Hc; [done|].
    assert (Hk : k ∈ Py.keys (columns a)).
    { rewrite Hc. apply elem_of_cons. by left. }
    apply (elem_of_keys_columns records) in Hk as [Hk Hnot]; [|done].
    rewrite Hh in Hk. destruct Hnot. apply Hspec. split; [done|]. by apply Hall.
Qed.

Lemma analyse_all_dropped records :
  (forall col, col ∈ headers_of (Csv.DictReader records) ->
     dropped_col (Csv.DictReader records) col) ->
  exists a, analyse (Csv.DictReader records) = Ret a /\ columns a = [].
Proof.
  intros Hall.
  destruct (find_zero_cols_Ret_scans (headers_of (Csv.DictReader records))
              (Csv.DictReader records)) as [zc Hzc].
  { intros col Hcol Ht Hts. destruct (Hall col Hcol) as [?|[_ ?]]; [congruence|].
    by exists true. }
  assert (Hkeep : filter (fun c => c ∉ zc)
                    (headers_of (Csv.DictReader records)) = []).
  { destruct (filter _ _) as [|k ks] eqn:Hf; [done|].
    assert (Hk : k ∈ filter (fun c => c ∉ zc)
                   (headers_of (Csv.DictReader records))).
    { rewrite Hf. apply elem_of_cons. by left. }
    apply list_elem_of_filter in Hk as [Hnot Hk]. destruct Hnot.
    apply (find_zero_cols_spec _ _ _ Hzc). split; [done|]. by apply Hall. }
  eexists. split.
  - unfold analyse. simpl_result. rewrite Hzc. simpl_result.
    rewrite Hkeep, build_columns_nil. simpl_result. reflexivity.
  - done.
Qed.

(** ** The exceptions of [convert] and of [main] *)

(** X3. [convert] raises [StopIteration] on exactly the files that have a
    data row and whose every column is dropped (by name, or as all zero);
    it has then written the empty document.  With any other exception it
    leaves the world as it was: nothing written, nothing printed. *)
Theorem convert_raises_cases
    (csv_name json_name : string) (w : world) (records : list (list string)) :
  files w !! csv_name = Some records ->
  let rows := Csv.DictReader records in
  ((convert csv_name json_name w).2 = Raise StopIteration <->
   rows ≠ [] /\ forall col, col ∈ headers_of rows -> dropped_col rows col) /\
  (forall e, (convert csv_name json_name w).2 = Raise e ->
     (e = StopIteration /\
      (convert csv_name json_name w).1 = write_json json_name (JObject []) w)
     \/ ((e = AttributeError \/ e = OverflowError) /\
         (convert csv_name json_name w).1 = w)).
Proof.
  intros Hf rows. subst rows.
  destruct (convert_cases csv_name json_name w records Hf)
    as [[Hnil Hc]|[(e' & Hne & Ha & Hc)|(a & Hne & Ha & Hc)]].
  - rewrite Hc. simpl. split; [|done]. split; [done|]. by intros [? _].
  - rewrite Hc. simpl. destruct (analyse_Raise records e' Ha) as [-> | ->].
    + split.
      * split; [done|]. intros [_ Hall].
        destruct (analyse_all_dropped records Hall) as (a & Ha' & _).
        congruence.
      * intros e [= <-]. right. split; [by left|done].
    + split.
      * split; [done|]. intros [_ Hall].
        destruct (analyse_all_dropped records Hall) as (a & Ha' & _).
        congruence.
      * intros e [= <-]. right. split; [by right|done].
  - pose proof (columns_nil_iff records a Ha) as Hnil.
    destruct Hc as [[Hcols Hc]|(n & Hcols & Hc)]; rewrite Hc; simpl.
    + split.
      * split; [|done]. intros _. split; [done|]. by apply Hnil.
      * intros e [= <-]. left. split; [done|]. by rewrite Hcols.
    + split; [|done]. split; [done|]. intros [_ Hall]. by apply Hnil in Hall.
Qed.

Lemma convert_raises_cases_witness :
  files only_date_column !! "calculation.csv"
    = Some [["date"]; ["2024-01-01"]] /\
  (convert "calculation.csv" "calc_15min_consumption_2024.json"
     only_date_column).2 = Raise StopIteration /\
  (convert "calculation.csv" "calc_15min_consumption_2024.json"
     only_date_column).1
  = write_json "calc_15min_consumption_2024.json" (JObject []) only_date_column.
Proof.
  assert (Hf : files only_date_column !! "calculation.csv"
               = Some [["date"]; ["2024-01-01"]]) by (by vm_compute).
  assert (He : (convert "calculation.csv" "calc_15min_consumption_2024.json"
                  only_date_column).2 = Raise StopIteration) by (by vm_compute).
  split_and!; [done..|].
  destruct (proj2 (convert_raises_cases "calculation.csv"
                     "calc_15min_consumption_2024.json" only_date_column _ Hf)
              _ He) as [[_ H]|[[H|H] _]]; [exact H|discriminate H..].
Defined.





(** ** When the analysis goes through *)

(** X5. The analysis of a file goes through, so that a document is
    written, exactly when in every column that is not named [date] or
    [month] every cell is a text, and no cell of a kept column is an
    infinite number.  The cells of [date] and [month] are never looked
    at. *)
Theorem analyse_succeeds_iff (records : list (list string)) :
  (exists a, analyse (Csv.DictReader records) = Ret a) <->
  (forall col r,
     col ∈ headers_of (Csv.DictReader records) -> is_time_col col = false ->
     r ∈ Csv.DictReader records ->
     exists s, Py.getitem r col = Ret (CStr s) /\
       (~ dropped_col (Csv.DictReader records) col ->
        forall b, Py.float (Py.strip s) ≠ Ret (S754_infinity b))).
Proof.
  split.
  - intros [a Ha] col r Hcol Ht Hr.
    destruct (analyse_inv _ _ Ha) as (Hh & Hzc & _ & _).
    pose proof (find_zero_cols_spec _ _ _ Hzc) as Hspec.
    destruct (decide (col ∈ zero_cols a)) as [Hin|Hout].
    + apply Hspec in Hin as [_ Hd]. destruct (Hd) as [?|[_ Hz]]; [congruence|].
      rewrite all_zero_true in Hz. destruct (Hz r Hr) as (s & Hs & _).
      exists s. split; [done|]. by intros [].
    + assert (Hk : col ∈ Py.keys (columns a)).
      { apply (elem_of_keys_columns records); [done|]. by rewrite Hh. }
      apply list_elem_of_fmap in Hk as ([k vs] & -> & Hin). simpl.
      destruct (analyse_columns _ _ Ha) as [_ Hcols].
      specialize (Hcols _ _ Hin).
      apply list_elem_of_lookup in Hr as [i Hi].
      destruct (Forall2_lookup_l _ _ _ _ _ Hcols Hi) as (v & _ & c & Hc & Hv).
      destruct c as [s| |l]; [|done..].
      exists s. split; [done|]. intros _ b Hb.
      apply parse_value_infinity in Hb. congruence.
  - intros Hcells. unfold analyse. simpl_result.
    destruct (find_zero_cols_Ret_scans (headers_of (Csv.DictReader records))
                (Csv.DictReader records)) as [zc Hzc].
    { intros col Hcol Ht _. apply all_zero_Ret. intros r Hr.
      destruct (Hcells col r Hcol Ht Hr) as (s & ? & _). by exists s. }
    rewrite Hzc. simpl_result.
    pose proof (find_zero_cols_spec _ _ _ Hzc) as Hspec.
    destruct (build_columns_Ret
                (filter (fun c => c ∉ zc) (headers_of (Csv.DictReader records)))
                (Csv.DictReader records)) as [cols ->]; [|by eauto].
    intros col r [Hnot Hcol]%list_elem_of_filter Hr.
    assert (Hnd : ~ dropped_col (Csv.DictReader records) col).
    { intros Hd. apply Hnot, Hspec. done. }
    assert (Ht : is_time_col col = false).
    { destruct (is_time_col col) eqn:Ht; [|done]. destruct Hnd. by left. }
    destruct (Hcells col r Hcol Ht Hr) as (s & Hs & Hfin).
    exists s. destruct (parse_value (CStr s)) as [v|e] eqn:Hv; [by eauto|].
    apply parse_value_Raise in Hv as [_ [b Hb]]. by destruct (Hfin Hnd b).
Qed.

(** ** The document and the report line *)

Lemma keys_columns_filter (records : list (list string)) (a : analysis) :
  analyse (Csv.DictReader records) = Ret a ->
  Py.keys (columns a)
  = filter (fun c => c ∉ zero_cols a) (headers_of (Csv.DictReader records)).
Proof.
  intros Ha. destruct (analyse_columns _ _ Ha) as [Hk _].
  destruct (analyse_inv _ _ Ha) as (Hh & _ & _ & _). by rewrite Hh in Hk.
Qed.

(** X6. The keys of the written document are the headers that are not in
    the drop set, in the order of the header line, each once; the members
    of the JSON object stand in that order. *)
Theorem document_keys_in_header_order
    (records : list (list string)) (a : analysis) :
  analyse (Csv.DictReader records) = Ret a ->
  Py.keys (columns a)
  = filter (fun c => c ∉ zero_cols a) (headers_of (Csv.DictReader records)) /\
  NoDup (Py.keys (columns a)) /\
  (json_members (json_of_columns (columns a))).*1
  = json_of_key <$> Py.keys (columns a).
Proof.
  intros Ha. pose proof (keys_columns_filter records a Ha) as Hk.
  split_and!; [done| |].
  - rewrite Hk. apply NoDup_filter, NoDup_headers_of.
  - simpl. unfold Py.keys. rewrite <- !list_fmap_compose. done.
Qed.

Lemma document_keys_in_header_order_witness :
  exists a,
    analyse (Csv.DictReader sample_records) = Ret a /\
    Py.keys (columns a) = [Some "timestamps"; Some "b"; Some "c"] /\
    (json_members (json_of_columns (columns a))).*1 = ["timestamps"; "b"; "c"].
Proof.
  eexists. split; [vm_compute; reflexivity|].
  match goal with |- context [columns ?x] => set (a := x) end.
  assert (Ha : analyse (Csv.DictReader sample_records) = Ret a) by (by vm_compute).
  destruct (document_keys_in_header_order sample_records a Ha) as (Hk & _ & Hj).
  split.
  - rewrite Hk. by vm_compute.
  - rewrite Hj, Hk. by vm_compute.
Defined.

Lemma length_keep_drop (hs : list key) (zc : gset key) :
  (length (filter (fun c => c ∈ zc) hs)
   + length (filter (fun c => c ∉ zc) hs) = length hs)%nat.
Proof.
  induction hs as [|h hs IH]; [done|].
  rewrite !filter_cons. destruct (decide (h ∈ zc)) as [Hin|Hout].
  - rewrite decide_False by (by intros []). simpl. lia.
  - rewrite decide_True by done. simpl. lia.
Qed.

(** The drop set holds as many names as there are headers in it. *)
Lemma size_drop_set (hs : list key) (zc : gset key) :
  NoDup hs -> (forall c, c ∈ zc -> c ∈ hs) ->
  size zc = length (filter (fun c => c ∈ zc) hs).
Proof.
  intros Hnd Hsub.
  assert (Heq : zc = list_to_set (filter (fun c => c ∈ zc) hs)).
  { apply set_eq. intros c. rewrite elem_of_list_to_set, list_elem_of_filter.
    split; [by auto|by intros [? _]]. }
  rewrite Heq at 1. apply size_list_to_set. by apply NoDup_filter.
Qed.

(** X7. The report line of a converted file tells the truth about the
    document: the row count is the number of data rows of the file (the
    length of the first column), the count of kept columns (headers minus
    dropped) is the number of columns of the document, and the drop set
    holds headers only. *)
Theorem report_counts
    (csv_name json_name : string) (w : world) (records : list (list string))
    (a : analysis) :
  files w !! csv_name = Some records ->
  analyse (Csv.DictReader records) = Ret a ->
  columns a ≠ [] ->
  convert csv_name json_name w
  = (print (Converted csv_name json_name
              (length (data_rows records))
              (Z.of_nat (length (columns a)))
              (Z.of_nat (length (headers_of (Csv.DictReader records))))
              (zero_cols a))
       (write_json json_name (json_of_columns (columns a)) w),
     Ret ()) /\
  (forall col, col ∈ zero_cols a -> col ∈ headers_of (Csv.DictReader records)).
Proof.
  intros Hf Ha Hne.
  destruct (analyse_inv _ _ Ha) as (Hh & Hzc & _ & _).
  pose proof (find_zero_cols_spec _ _ _ Hzc) as Hspec.
  assert (Hsub : forall col,
    col ∈ zero_cols a -> col ∈ headers_of (Csv.DictReader records)).
  { intros col Hin. by apply Hspec in Hin as [? _]. }
  split; [|done].
  pose proof (keys_columns_filter records a Ha) as Hk.
  assert (Hcount : Z.of_nat (length (headers a)) - Z.of_nat (size (zero_cols a))
                   = Z.of_nat (length (columns a))).
  { rewrite Hh, (size_drop_set (headers_of (Csv.DictReader records)));
      [|apply NoDup_headers_of|done].
    pose proof (length_keep_drop (headers_of (Csv.DictReader records))
                  (zero_cols a)) as Hlen.
    rewrite <- Hk in Hlen. unfold Py.keys in Hlen. rewrite length_fmap in Hlen.
    lia. }
  unfold convert. rewrite Hf.
  destruct (Csv.DictReader records) as [|row0 rows] eqn:Hrows.
  { unfold analyse in Ha. simpl in Ha. simpl_result.
    injection Ha as <-. done. }
  rewrite Ha. destruct (columns a) as [|[k vs] cols] eqn:Hc; [done|].
  rewrite Hcount, Hh.
  assert (Hlen : length vs = length (data_rows records)).
  { destruct (analyse_columns records a) as [_ Hcols]; [by rewrite Hrows|].
    rewrite <- DictReader_length.
    symmetry. apply (Forall2_length (coerced k)). apply Hcols.
    rewrite Hc. apply elem_of_cons. by left. }
  by rewrite Hlen.
Qed.

Lemma report_counts_witness :
  exists a,
    analyse (Csv.DictReader sample_records) = Ret a /\
    columns a ≠ [] /\
    stdout (convert "calculation.csv" "calc_15min_consumption_2024.json"
              sample_world).1
    = [Converted "calculation.csv" "calc_15min_consumption_2024.json"
         3 3 4 (zero_cols a)].
Proof.
  eexists. split; [vm_compute; reflexivity|].
  match goal with |- context [columns ?x] => set (a := x) end.
  assert (Ha : analyse (Csv.DictReader sample_records) = Ret a) by (by vm_compute).
  assert (Hne : columns a ≠ []) by (by vm_compute).
  assert (Hf : files sample_world !! "calculation.csv" = Some sample_records)
    by (by vm_compute).
  split; [done|].
  destruct (report_counts "calculation.csv" "calc_15min_consumption_2024.json"
              sample_world sample_records a Hf Ha Hne) as [Hc _].
  rewrite Hc. by vm_compute.
Defined.

(** ** What a run writes *)

Lemma writes_convert_effect csv_name json_name content kd :
  kd ∈ writes (convert_effect csv_name json_name content) ->
  kd.1 = json_name /\ is_Some content.
Proof.
  unfold convert_effect. destruct content as [records|]; simpl.
  2:{ by intros ?%elem_of_nil. }
  destruct (Csv.DictReader records) as [|row0 rows]; simpl.
  { by intros ?%elem_of_nil. }
  destruct (analyse (row0 :: rows)) as [a|e]; simpl.
  2:{ by intros ?%elem_of_nil. }
  destruct (columns a) as [|[k vs] cols]; simpl;
    intros ->%list_elem_of_singleton; by eauto.
Qed.

Lemma writes_convert_all_effect items (dir : gmap string (list (list string))) kd :
  kd ∈ writes (convert_all_effect items dir) ->
  exists csv_name, (csv_name, kd.1) ∈ items /\ is_Some (dir !! csv_name).
Proof.
  induction items as [|[csv_name json_name] items IH]; simpl.
  { by intros ?%elem_of_nil. }
  assert (IH' : kd ∈ writes (convert_all_effect items dir) ->
    exists c, (c, kd.1) ∈ (csv_name, json_name) :: items /\ is_Some (dir !! c)).
  { intros (c & ? & ?)%IH. exists c. split; [|done]. apply elem_of_cons. by right. }
  destruct (dir !! csv_name) as [records|] eqn:Hf; simpl; [|done].
  assert (Hhead : kd ∈ writes (convert_effect csv_name json_name (Some records)) ->
    exists c, (c, kd.1) ∈ (csv_name, json_name) :: items /\ is_Some (dir !! c)).
  { intros [-> _]%writes_convert_effect. exists csv_name.
    split; [apply elem_of_cons; by left|by rewrite Hf]. }
  destruct (outcome (convert_effect csv_name json_name (Some records)))
    as [[]|e]; simpl; [|done].
  intros [?|?]%elem_of_app; by auto.
Qed.

Lemma last_write_None ws k :
  (forall kd, kd ∈ ws -> kd.1 ≠ k) -> last_write ws k = None.
Proof.
  induction ws as [|kd ws IH]; intros Hne; simpl; [done|].
  rewrite IH by (intros kd' ?; apply Hne, elem_of_cons; by right).
  rewrite decide_False; [done|]. apply Hne, elem_of_cons. by left.
Qed.

(** X8. A run leaves the input directory as it is and writes no file but
    the configured outputs of the inputs that exist: every other name
    holds after the run what it held before. *)
Theorem run_writes_only_outputs (w : world) (k : string) :
  (forall csv_name json_name,
     (csv_name, json_name) ∈ FILE_MAP -> is_Some (files w !! csv_name) ->
     json_name ≠ k) ->
  written (main w).1 !! k = written w !! k /\
  files (main w).1 = files w.
Proof.
  rewrite main_run_effect. unfold main_effect. generalize FILE_MAP.
  intros items Hne.
  assert (Hnone : last_write (writes (convert_all_effect items (files w))) k = None).
  { apply last_write_None. intros kd (c & Hin & Hc)%writes_convert_all_effect.
    by apply (Hne c). }
  destruct (outcome (convert_all_effect items (files w))) as [[]|e];
    unfold run_effect; simpl; by rewrite lookup_apply_writes, Hnone.
Qed.

Lemma run_writes_only_outputs_witness :
  written (main sample_world).1 !! "calc_monthly_2024.json" = None /\
  files (main sample_world).1 = files sample_world.
Proof.
  assert (H : Forall (fun p : string * string =>
                        is_Some (files sample_world !! p.1) ->
                        p.2 ≠ "calc_monthly_2024.json") FILE_MAP)
    by decide_by_computation.
  destruct (run_writes_only_outputs sample_world "calc_monthly_2024.json")
    as [Hw Hf].
  - intros c j Hin. rewrite Forall_forall in H. apply (H (c, j) Hin).
  - split; [|done]. rewrite Hw. by vm_compute.
Defined.

(** ** The order of the report *)

Lemma convert_effect_prints csv_name json_name records :
  match outcome (convert_effect csv_name json_name (Some records)) with
  | Ret _ =>
      exists ev, prints (convert_effect csv_name json_name (Some records)) = [ev]
                 /\ event_csv ev = Some csv_name
  | Raise _ => prints (convert_effect csv_name json_name (Some records)) = []
  end.
Proof.
  unfold convert_effect.
  destruct (Csv.DictReader records) as [|row0 rows]; simpl; [by eauto|].
  destruct (analyse (row0 :: rows)) as [a|e]; simpl; [|done].
  destruct (columns a) as [|[k vs] cols]; simpl; by eauto.
Qed.

Lemma convert_all_effect_prints
    (items : list (string * string)) (dir : gmap string (list (list string))) :
  exists n : nat,
    event_csv <$> prints (convert_all_effect items dir)
    = Some <$> take n items.*1 /\
    (n <= length items)%nat /\
    (outcome (convert_all_effect items dir) = Ret () <-> n = length items).
Proof.
  induction items as [|[csv_name json_name] items (n & Hp & Hn & Ho)]; simpl.
  { exists 0%nat. done. }
  destruct (dir !! csv_name) as [records|]; simpl.
  - pose proof (convert_effect_prints csv_name json_name records) as Hc.
    destruct (outcome (convert_effect csv_name json_name (Some records)))
      as [[]|e] eqn:Hout; simpl.
    + destruct Hc as (ev & -> & Hev). exists (S n). simpl.
      split_and!; [rewrite Hev; f_equal; exact Hp|lia|]. rewrite Ho. lia.
    + exists 0%nat. rewrite Hc, Hout. simpl. split_and!; [done|lia|]. done.
  - exists (S n). simpl. split_and!; [f_equal; exact Hp|lia|]. rewrite Ho. lia.
Qed.

(** X9. Whatever the directory holds, the lines a run prints after the
    banner are about the configured files in their configured order, one
    line per entry, up to the entry whose conversion raises, if one does;
    the closing line follows exactly when every entry has been
    processed. *)
Theorem run_reports_in_order (w : world) :
  exists (lines : list event) (n : nat),
    stdout (main w).1
    = stdout w ++ Banner :: lines
      ++ match (main w).2 with Ret _ => [Done] | Raise _ => [] end /\
    event_csv <$> lines = Some <$> take n FILE_MAP.*1 /\
    (n <= length FILE_MAP)%nat /\
    ((main w).2 = Ret () <-> n = length FILE_MAP).
Proof.
  rewrite main_run_effect. unfold main_effect. generalize FILE_MAP. intros items.
  destruct (convert_all_effect_prints items (files w)) as (n & Hp & Hn & Ho).
  exists (prints (convert_all_effect items (files w))), n.
  destruct (outcome (convert_all_effect items (files w))) as [[]|e];
    unfold run_effect; simpl.
  - split_and!; [done..|]. split; [by intros _; apply Ho|done].
  - rewrite app_nil_r. split_and!; [done..|].
    split; [done|]. intros Hlen. by apply Ho in Hlen.
Qed.

(** ** Complete runs *)




Lemma last_write_app ws1 ws2 k :
  last_write (ws1 ++ ws2) k
  = match last_write ws2 k with
    | Some d => Some d
    | None => last_write ws1 k
    end.
Proof.
  induction ws1 as [|kd ws1 IH]; simpl.
  - by destruct (last_write ws2 k).
  - rewrite IH. by destruct (last_write ws2 k).
Qed.

Lemma convert_all_effect_document
    (items : list (string * string)) (dir : gmap string (list (list string)))
    csv_name json_name records a :
  NoDup items.*2 ->
  outcome (convert_all_effect items dir) = Ret () ->
  (csv_name, json_name) ∈ items ->
  dir !! csv_name = Some records ->
  Csv.DictReader records ≠ [] ->
  analyse (Csv.DictReader records) = Ret a ->
  last_write (writes (convert_all_effect items dir)) json_name
  = Some (json_of_columns (columns a)).
Proof.
  intros Hnd Hout Hin Hf Hrows Ha.
  induction items as [|[c0 j0] items IH]; simpl in *.
  { by apply elem_of_nil in Hin. }
  apply NoDup_cons in Hnd as [Hj0 Hnd].
  assert (Hrest : (csv_name, json_name) ∈ items ->
    outcome (convert_all_effect items dir) = Ret () ->
    last_write (writes (convert_all_effect items dir)) json_name
    = Some (json_of_columns (columns a))).
  { intros Hin' Hout'. by apply IH. }
  assert (Hfresh : json_name = j0 ->
    last_write (writes (convert_all_effect items dir)) json_name = None).
  { intros ->. apply last_write_None.
    intros kd (c & Hkd & _)%writes_convert_all_effect Heq. apply Hj0.
    apply list_elem_of_fmap. exists (c, kd.1). by rewrite Heq in *. }
  apply elem_of_cons in Hin as [Heq|Hin].
  - injection Heq as <- <-. rewrite Hf in *. simpl in *.
    revert Hout. unfold convert_effect.
    destruct (Csv.DictReader records) as [|row0 rows] eqn:Hr; [done|].
    rewrite Ha. destruct (columns a) as [|[k vs] cols] eqn:Hc; simpl; [done|].
    intros Hout. rewrite Hfresh by done. by rewrite decide_True.
  - destruct (dir !! c0) as [r0|]; simpl in *; [|by apply Hrest].
    destruct (outcome (convert_effect c0 j0 (Some r0))) as [[]|e] eqn:Ho0;
      simpl in *.
    + rewrite last_write_app, Hrest by done. done.
    + congruence.
Qed.

Lemma NoDup_FILE_MAP_outputs : NoDup FILE_MAP.*2.
Proof. decide_by_computation. Qed.

(** X11. After a run that ends normally, the output file of every
    configured input that exists and has data rows holds the document of
    that input: no later entry has overwritten it. *)
Theorem run_writes_documents
    (w : world) (csv_name json_name : string) (records : list (list string))
    (a : analysis) :
  (main w).2 = Ret () ->
  (csv_name, json_name) ∈ FILE_MAP ->
  files w !! csv_name = Some records ->
  Csv.DictReader records ≠ [] ->
  analyse (Csv.DictReader records) = Ret a ->
  written (main w).1 !! json_name = Some (json_of_columns (columns a)).
Proof.
  pose proof NoDup_FILE_MAP_outputs as Hnd. revert Hnd.
  rewrite main_run_effect. unfold main_effect. generalize FILE_MAP.
  intros items Hnd Hout Hin Hf Hrows Ha.
  destruct (outcome (convert_all_effect items (files w))) as [[]|e] eqn:Ho;
    simpl in Hout; [|done].
  unfold run_effect. simpl.
  rewrite lookup_apply_writes.
  by rewrite (convert_all_effect_document items (files w) csv_name json_name
                records a).
Qed.

Lemma run_writes_documents_witness :
  exists a,
    analyse (Csv.DictReader sample_records) = Ret a /\
    (main sample_world).2 = Ret () /\
    written (main sample_world).1 !! "calc_15min_consumption_2024.json"
    = Some (json_of_columns (columns a)).
Proof.
  eexists. split; [vm_compute; reflexivity|].
  match goal with |- context [columns ?x] => set (a := x) end.
  assert (Ha : analyse (Csv.DictReader sample_records) = Ret a) by (by vm_compute).
  assert (Hret : (main sample_world).2 = Ret ()) by (by vm_compute).
  split; [done|].
  apply (run_writes_documents sample_world "calculation.csv" _ sample_records a).
  - done.
  - decide_by_computation.
  - by vm_compute.
  - by vm_compute.
  - done.
Defined.
